(** * LiveTrade: the SMA limit-order strategy and its tick state machine

    A shallow embedding of [src/trading/indicators.py], [src/trading/strategy.py]
    and the part of [src/api/kraken_client.py] they call.

    Conventions of the embedding.
    - Python floats are idealised as exact rationals ([Q]) extended with the one
      special value the code can meet on its normal path, [NaN], which pandas
      uses for a rolling window that is not yet full.  Rounding error of binary
      floating point is therefore not modelled; NaN propagation and NaN
      comparisons are.
    - Python exceptions are values of [exn]; a computation is a function from
      the world to an outcome and a new world.  The world is kept when an
      exception is raised, as attribute writes on [self] are in Python.
    - The exchange (pykrakenapi / krakenex, outside the repository) is an
      oracle answering each call from the history of calls made so far. *)

From Stdlib Require Import ZArith QArith Qround Qabs List String Bool Lia Lqa.
Import ListNotations.

Local Open Scope Q_scope.

(** ** Numbers *)

Inductive pyfloat : Type :=
| Num (q : Q)
| NaN.

Definition fmul (a b : pyfloat) : pyfloat :=
  match a, b with
  | Num x, Num y => Num (x * y)
  | _, _ => NaN
  end.

(** [a >= b]: any comparison with NaN is false. *)
Definition fge (a b : pyfloat) : bool :=
  match a, b with
  | Num x, Num y => Qle_bool y x
  | _, _ => false
  end.

(** [a != b]: NaN differs from everything, itself included. *)
Definition fne (a b : pyfloat) : bool :=
  match a, b with
  | Num x, Num y => negb (Qeq_bool x y)
  | _, _ => true
  end.

(** Nearest integer, ties to the even one: what [round] computes on the exact
    value of its argument. *)
Definition round_half_even (q : Q) : Z :=
  let f := Qfloor q in
  match Qcompare (q - inject_Z f) (1 # 2) with
  | Lt => f
  | Gt => (f + 1)%Z
  | Eq => if Z.even f then f else (f + 1)%Z
  end.

(** [round(x, 1)] on a finite number. *)
Definition round1 (q : Q) : Q := inject_Z (round_half_even (q * 10)) / 10.

(** [round(x, 1)] on a float; [round(nan, 1)] is [nan]. *)
Definition py_round1 (x : pyfloat) : pyfloat :=
  match x with
  | Num q => Num (round1 q)
  | NaN => NaN
  end.

(** ** Exceptions and outcomes *)

Inductive exn : Type :=
| KeyError
| IndexError
| TypeError
| ValueError
| ZeroDivisionError
| ApiError (reason : string).

Inductive result (A : Type) : Type :=
| Ok (a : A)
| Raise (e : exn).
Arguments Ok {A} a.
Arguments Raise {A} e.

(** ** pandas: [Series.rolling(window=w).mean()]

    The sliding-window kernel of pandas ([roll_mean] over the fixed-window
    bounds [start i = max 0 (i + 1 - w)], [end i = i + 1]): the first window is
    summed from scratch, every later one is obtained from its predecessor by
    removing the samples that left and adding the samples that entered.  The
    mean of a window is reported when it holds at least [min_periods]
    observations ([min_periods] defaults to the window size) and at least one;
    otherwise the entry is NaN.  Over exact numbers the kernel's compensation
    terms and sign clamps are vacuous and are left out. *)

Definition win_start (w i : nat) : nat := (S i - w)%nat.
Definition win_end (i : nat) : nat := S i.

Record mean_acc : Type := MeanAcc { nobs : Z; sum_x : Q }.

Definition add_mean (val : Q) (a : mean_acc) : mean_acc :=
  MeanAcc (nobs a + 1)%Z (sum_x a + val).

Definition remove_mean (val : Q) (a : mean_acc) : mean_acc :=
  MeanAcc (nobs a - 1)%Z (sum_x a - val).

Definition calc_mean (minp : Z) (a : mean_acc) : pyfloat :=
  if ((minp <=? nobs a)%Z && (0 <? nobs a)%Z)%bool
  then Num (sum_x a / inject_Z (nobs a))
  else NaN.

(** [values[j]] for [j] in [lo, hi), folded into the accumulator. *)
Definition over_range (f : Q -> mean_acc -> mean_acc) (values : list Q)
    (lo hi : nat) (a : mean_acc) : mean_acc :=
  fold_left (fun acc j => f (nth j values 0) acc) (seq lo (hi - lo)) a.

(** One iteration of the kernel's loop, for index [i]. *)
Definition roll_step (w : nat) (values : list Q) (i : nat) (a : mean_acc)
    : mean_acc :=
  match i with
  | O => over_range add_mean values (win_start w 0) (win_end 0) (MeanAcc 0 0)
  | S i' =>
      let a1 := over_range remove_mean values (win_start w i') (win_start w i) a in
      over_range add_mean values (win_end i') (win_end i) a1
  end.

Fixpoint roll_loop (w : nat) (minp : Z) (values : list Q) (n i : nat)
    (a : mean_acc) : list pyfloat :=
  match n with
  | O => []
  | S n' =>
      let a' := roll_step w values i a in
      calc_mean minp a' :: roll_loop w minp values n' (S i) a'
  end.

Definition rolling_mean (w : nat) (values : list Q) : list pyfloat :=
  roll_loop w (Z.of_nat w) values (List.length values) 0 (MeanAcc 0 0).

(** [series.iloc[-1]] *)
Definition iloc_last (s : list pyfloat) : result pyfloat :=
  match s with
  | [] => Raise IndexError
  | x :: _ => Ok (last s x)
  end.

(** [ohlc_data['close'].rolling(window=length).mean().iloc[-1]]; a negative
    window is rejected by pandas with a ValueError. *)
Definition rolling_mean_last (window : Z) (closes : list Q) : result pyfloat :=
  if (window <? 0)%Z then Raise ValueError
  else iloc_last (rolling_mean (Z.to_nat window) closes).

(** ** The world: trading state and the calls made to the exchange *)

(** [side]: the strings ['buy'] and ['sell']. *)
Inductive side : Type := buy | sell.

(** A request that reached the exchange library. *)
Inductive call : Type :=
| GetAccountBalance
| GetOhlcData (pair : string) (interval : Z)
| AddStandardOrder (pair : string) (type : side) (volume : Q)
                   (price : pyfloat) (validate : bool)
| CancelOrder (txid : string)
| QueryOrdersInfo (txid : string).

(** The acknowledgement of an order: the value under ['txid'], if the key is
    there (a validate-only acknowledgement carries none). *)
Record order_ack : Type := OrderAck { txid : option (list string) }.

(** One entry of an order query: ['status'], if present, and the outcome of
    [float(entry['price'])]. *)
Record order_info : Type := OrderInfo {
  status : option string;
  price : result pyfloat
}.

(** The account balance as a dictionary: under each currency it has, the
    outcome of [float(balance[currency])] (a [TypeError] for the nested
    dictionaries that a converted DataFrame holds). *)
Definition balances : Type := string -> option (result pyfloat).

(** The exchange as seen through pykrakenapi and krakenex.  Every answer is a
    function of the calls made so far, the one being answered first. *)
Record Exchange : Type := {
  kraken_get_account_balance : list call -> result balances;
  kraken_get_ohlc_data : list call -> result (list Q);
  kraken_add_standard_order : list call -> result order_ack;
  api_query_private_cancel : list call -> result (list string);
  kraken_query_orders_info : list call -> result (string -> option order_info)
}.

(** The attributes of [LimitStrategy] that [execute] writes. *)
Record TradingState : Type := {
  active_order : option string;
  entry_sma : option pyfloat;
  in_position : bool
}.

Record World : Type := {
  self : TradingState;
  calls : list call
}.

(** The configuration dictionary, with the keys the strategy reads. *)
Record Config : Type := {
  pair : string;
  sma_length : Z;
  depeg_percentage : Q;
  volume : Q;
  base_currency : string
}.

(** ** Computations that may raise *)

Definition M (A : Type) : Type := World -> result A * World.

Definition ret {A} (a : A) : M A := fun w => (Ok a, w).

Definition raise {A} (e : exn) : M A := fun w => (Raise e, w).

Definition bind {A B} (m : M A) (k : A -> M B) : M B :=
  fun w =>
    match m w with
    | (Ok a, w') => k a w'
    | (Raise e, w') => (Raise e, w')
    end.

(** [try: m except Exception as e: h e] *)
Definition try_except {A} (m : M A) (h : exn -> M A) : M A :=
  fun w =>
    match m w with
    | (Ok a, w') => (Ok a, w')
    | (Raise e, w') => h e w'
    end.

(** [try: m except Exception as e: logger.error(...); raise] *)
Definition reraising {A} (m : M A) : M A := try_except m (fun e => raise e).

Definition lift {A} (r : result A) : M A := fun w => (r, w).

(** A call to the exchange: it is recorded, then answered. *)
Definition ask {A} (c : call) (answer : list call -> result A) : M A :=
  fun w =>
    let h := c :: calls w in
    (answer h, {| self := self w; calls := h |}).

(** [self.<field>] *)
Definition read {A} (field : TradingState -> A) : M A :=
  fun w => (Ok (field (self w)), w).

Definition write (upd : TradingState -> TradingState) : M unit :=
  fun w => (Ok tt, {| self := upd (self w); calls := calls w |}).

Definition set_active_order (v : option string) (s : TradingState) :=
  {| active_order := v; entry_sma := entry_sma s; in_position := in_position s |}.

Definition set_entry_sma (v : option pyfloat) (s : TradingState) :=
  {| active_order := active_order s; entry_sma := v; in_position := in_position s |}.

Definition set_in_position (v : bool) (s : TradingState) :=
  {| active_order := active_order s; entry_sma := entry_sma s; in_position := v |}.

Declare Scope py_scope.
Delimit Scope py_scope with py.
Notation "x <- m ;; k" := (bind m (fun x => k))
  (at level 61, m at next level, right associativity) : py_scope.
Notation "m ;;; k" := (bind m (fun _ => k))
  (at level 61, right associativity) : py_scope.
Local Open Scope py_scope.

(** ** Python helpers *)

(** Truth value of [self.active_order]: [None] and the empty string are false. *)
Definition truthy (o : option string) : bool :=
  match o with
  | Some s => negb (String.eqb s "")
  | None => false
  end.

(** [d[k]] on a dictionary *)
Definition subscript {A} (d : string -> option A) (k : string) : result A :=
  match d k with
  | Some v => Ok v
  | None => Raise KeyError
  end.

(** [d.get(k, default)] *)
Definition dict_get {A} (d : string -> option A) (k : string) (default : A)
    : A :=
  match d k with
  | Some v => v
  | None => default
  end.

(** [order['txid'][0]] *)
Definition first_txid (order : order_ack) : result string :=
  match txid order with
  | None => Raise KeyError
  | Some [] => Raise IndexError
  | Some (t :: _) => Ok t
  end.

(** [a / b] on floats: a zero divisor raises. *)
Definition fdiv (a b : pyfloat) : result pyfloat :=
  match b with
  | Num y =>
      if Qeq_bool y 0 then Raise ZeroDivisionError
      else match a with
           | Num x => Ok (Num (x / y))
           | NaN => Ok NaN
           end
  | NaN => Ok NaN
  end.

(** An argument that must be a string or a number was [None]. *)
Definition not_none {A} (o : option A) : result A :=
  match o with
  | Some v => Ok v
  | None => Raise TypeError
  end.

Section Bot.

Variable ex : Exchange.

(** ** [KrakenClient] (src/api/kraken_client.py) *)

Definition get_account_balance : M balances :=
  reraising (ask GetAccountBalance (kraken_get_account_balance ex)).

Definition get_historical_data (pair : string) (interval : Z) : M (list Q) :=
  reraising (ask (GetOhlcData pair interval) (kraken_get_ohlc_data ex)).

Definition place_limit_order (pair : string) (volume : Q) (price : pyfloat)
    (side : side) (validate : bool) : M order_ack :=
  reraising
    (ask (AddStandardOrder pair side volume price validate)
         (kraken_add_standard_order ex)).

Definition cancel_order (order_id : string) : M unit :=
  reraising
    (response <- ask (CancelOrder order_id) (api_query_private_cancel ex) ;;
     match response with
     | [] => ret tt
     | _ :: _ => raise (ApiError (String.concat ", " response))
     end).

Definition get_order_details (txid : string)
    : M (string -> option order_info) :=
  reraising (ask (QueryOrdersInfo txid) (kraken_query_orders_info ex)).

Definition update_limit_order (pair : string) (volume : Q)
    (new_price : pyfloat) (order_id : string) (side : side) : M unit :=
  reraising
    (cancel_order order_id ;;;
     _ <- place_limit_order pair volume new_price side false ;;
     ret tt).

(** ** [Indicator] (src/trading/indicators.py) *)

Definition calculate_sma (pair : string) (timeframe : Z) (length : Z)
    : M pyfloat :=
  reraising
    (ohlc_data <- get_historical_data pair timeframe ;;
     sma <- lift (rolling_mean_last length ohlc_data) ;;
     ret sma).

(** ** [LimitStrategy] (src/trading/strategy.py) *)

Variable config : Config.
Variable test_mode : bool.

Definition format_price (price : pyfloat) : pyfloat := py_round1 price.

(** [1 - self.config['depeg_percentage']/100] *)
Definition depeg_factor : Q := 1 - depeg_percentage config / 100.

Definition calculate_target_price : M pyfloat :=
  reraising
    (sma <- calculate_sma (pair config) 60 (sma_length config) ;;
     let target_price := fmul sma (Num depeg_factor) in
     let formatted_price := format_price target_price in
     ret formatted_price).

Definition check_balance_for_order : M bool :=
  try_except
    (if test_mode then ret true
     else
       balance <- get_account_balance ;;
       target <- calculate_target_price ;;
       let required := fmul (Num (volume config)) target in
       held <- lift (dict_get balance (base_currency config) (Ok (Num 0))) ;;
       let has_balance := fge held required in
       ret has_balance)
    (fun _ => ret false).

(** The branch of [execute] taken with no position and no active order. *)
Definition entry_logic : M unit :=
  has_balance <- check_balance_for_order ;;
  if negb has_balance then ret tt
  else
    target_price <- calculate_target_price ;;
    order <- place_limit_order (pair config) (volume config) target_price
                               buy test_mode ;;
    if test_mode then ret tt
    else
      new_id <- lift (first_txid order) ;;
      write (set_active_order (Some new_id)) ;;;
      sma <- lift (fdiv target_price (Num depeg_factor)) ;;
      write (set_entry_sma (Some sma)).

(** The branch of [execute] taken with an active order, in live mode. *)
Definition order_management : M unit :=
  order_id <- bind (read active_order) (fun o => lift (not_none o)) ;;
  order_details <- get_order_details order_id ;;
  info <- lift (subscript order_details order_id) ;;
  status <- lift (match status info with
                  | Some s => Ok s
                  | None => Raise KeyError
                  end) ;;
  if String.eqb status "closed" then
    positioned <- read in_position ;;
    if negb positioned then
      write (set_in_position true) ;;;
      ref_price <- bind (read entry_sma) (fun p => lift (not_none p)) ;;
      sell_order <- place_limit_order (pair config) (volume config)
                                      (format_price ref_price) sell false ;;
      sell_id <- lift (first_txid sell_order) ;;
      write (set_active_order (Some sell_id))
    else
      write (set_in_position false) ;;;
      write (set_active_order None) ;;;
      write (set_entry_sma None)
  else
    positioned <- read in_position ;;
    if negb positioned then
      new_target <- calculate_target_price ;;
      current_price <- lift (price info) ;;
      if fne new_target current_price then
        update_limit_order (pair config) (volume config) new_target
                           order_id buy ;;;
        write (set_active_order None)
      else ret tt
    else ret tt.

(** The [try] block of [execute]. *)
Definition execute_body : M unit :=
  positioned <- read in_position ;;
  order <- read active_order ;;
  if (negb positioned && negb (truthy order))%bool then entry_logic
  else if (truthy order && negb test_mode)%bool then order_management
  else ret tt.

(** [except Exception as e: logger.error(...)]: the tick ends normally. *)
Definition execute : M unit :=
  try_except execute_body (fun _ => ret tt).

End Bot.

(** The state of a freshly constructed [LimitStrategy]. *)
Definition initial_state : TradingState :=
  {| active_order := None; entry_sma := None; in_position := false |}.

(** One tick: [execute] run on a trading state, after the calls [past]. *)
Definition tick (ex : Exchange) (config : Config) (test_mode : bool)
    (s : TradingState) (past : list call) : result unit * World :=
  execute ex config test_mode {| self := s; calls := past |}.

(** [n] ticks in a row against the same exchange. *)
Fixpoint ticks (ex : Exchange) (config : Config) (test_mode : bool) (n : nat)
    (s : TradingState) (past : list call) : World :=
  match n with
  | O => {| self := s; calls := past |}
  | S n' =>
      let w := snd (tick ex config test_mode s past) in
      ticks ex config test_mode n' (self w) (calls w)
  end.

(** ** Vocabulary of the properties *)

Definition qsum (l : list Q) : Q := fold_right Qplus 0 l.

(** Sum of the first [k] samples. *)
Definition prefix_sum (values : list Q) (k : nat) : Q := qsum (firstn k values).



(** The accumulator describes the window that ends at index [i]. *)
Definition window_acc (w : nat) (values : list Q) (i : nat) (a : mean_acc)
    : Prop :=
  nobs a = (Z.of_nat (win_end i) - Z.of_nat (win_start w i))%Z /\
  sum_x a == prefix_sum values (win_end i) - prefix_sum values (win_start w i).

(** The accumulator a loop iteration starts from: untouched before the first,
    the previous window afterwards. *)
Definition loop_entry (w : nat) (values : list Q) (i : nat) (a : mean_acc)
    : Prop :=
  match i with
  | O => True
  | S i' => window_acc w values i' a
  end.

(** Trading states a strategy can be in: the initial one, and whatever a tick
    makes of a reachable one, whatever the exchange answers and whatever was
    asked of it before. *)
Inductive reachable (config : Config) (test_mode : bool)
    : TradingState -> Prop :=
| reachable_initial : reachable config test_mode initial_state
| reachable_tick (ex : Exchange) (s : TradingState) (past : list call) :
    reachable config test_mode s ->
    reachable config test_mode (self (snd (tick ex config test_mode s past))).

(** What keeps [in_position] harmless: a live order always has its reference
    price, and a position always has both. *)
Definition well_formed (s : TradingState) : Prop :=
  (truthy (active_order s) = true -> entry_sma s <> None) /\
  (in_position s = true -> entry_sma s <> None /\ active_order s <> None).

(** Calls a dry run may make: market data, and orders sent for validation. *)
Definition dry_call (c : call) : bool :=
  match c with
  | GetOhlcData _ _ => true
  | AddStandardOrder _ _ _ _ validate => validate
  | _ => false
  end.

(** ** Sample collaborators *)

Local Open Scope string_scope.

(** The configuration of the repository's tests. *)
Definition sample_config : Config :=
  {| pair := "XXBTZUSD"; sma_length := 25; depeg_percentage := 4;
     volume := 1 # 1000; base_currency := "ZUSD" |}.

(** An exchange holding 1000 ZUSD that serves the series [closes], reports
    every order with the given status and resting price, accepts buy orders
    as ["OBUY01"] and, unless [sell_fails], sell orders as ["OSELL1"]. *)
Definition sample_exchange (closes : list Q) (order_status : string)
    (resting : Q) (sell_fails : bool) : Exchange :=
  {| kraken_get_account_balance := fun _ =>
       Ok (fun k => if String.eqb k "ZUSD" then Some (Ok (Num 1000)) else None);
     kraken_get_ohlc_data := fun _ => Ok closes;
     kraken_add_standard_order := fun h =>
       match h with
       | AddStandardOrder _ sell _ _ _ :: _ =>
           if sell_fails then Raise (ApiError "EService:Unavailable")
           else Ok (OrderAck (Some ["OSELL1"]))
       | _ => Ok (OrderAck (Some ["OBUY01"]))
       end;
     api_query_private_cancel := fun _ => Ok [];
     kraken_query_orders_info := fun _ =>
       Ok (fun _ => Some (OrderInfo (Some order_status) (Ok (Num resting)))) |}.

Definition flat_closes (n : nat) : list Q := repeat 100 n.

(** A buy order resting: placed at 96.0 for an average of 100. *)
Definition buy_pending : TradingState :=
  {| active_order := Some "OBUY01"; entry_sma := Some (Num 100);
     in_position := false |}.

(** A position opened by two live ticks: buy placed, then reported filled. *)
Definition opened_position : TradingState :=
  let ex1 := sample_exchange (flat_closes 26) "open" 96 false in
  let ex2 := sample_exchange (flat_closes 26) "closed" 96 false in
  let w1 := snd (tick ex1 sample_config false initial_state []) in
  self (snd (tick ex2 sample_config false (self w1) (calls w1))).

Local Close Scope string_scope.

(** ** Proof automation *)

Ltac unfold_client :=
  unfold update_limit_order, get_order_details, cancel_order,
    place_limit_order, get_historical_data, get_account_balance.

Ltac unfold_monad :=
  unfold reraising, try_except, bind, ret, raise, lift, ask, read, write.

Ltac unfold_strategy :=
  unfold tick, execute, execute_body, entry_logic, order_management,
    check_balance_for_order.

(** Case analysis on the innermost term a [match] of the goal inspects. *)
Ltac destruct_inner x :=
  lazymatch x with
  | context [match ?y with _ => _ end] => destruct_inner y
  | _ => destruct x eqn:?
  end.

Ltac split_match :=
  match goal with
  | |- context [match ?x with _ => _ end] => destruct_inner x
  end.

#[local] Arguments rolling_mean_last : simpl never.
#[local] Arguments fmul : simpl never.
#[local] Arguments fge : simpl never.
#[local] Arguments fne : simpl never.
#[local] Arguments format_price : simpl never.
#[local] Arguments round1 : simpl never.
#[local] Arguments depeg_factor : simpl never.
#[local] Arguments Qeq_bool : simpl never.
#[local] Arguments Qle_bool : simpl never.
#[local] Arguments Qmult : simpl never.
#[local] Arguments Qdiv : simpl never.

(** Exhaustive case analysis on the answers of the exchange. *)
Ltac run_tick :=
  unfold_strategy; unfold calculate_target_price, calculate_sma;
  unfold_client; unfold_monad; unfold subscript, not_none, first_txid, fdiv;
  cbn; rewrite ?Bool.andb_false_r, ?Bool.andb_true_r;
  repeat (split_match; cbn in *; try discriminate; subst).

(** Use what is known of an answer before splitting on it. *)
Ltac use_fact :=
  match goal with
  | H : ?l = _ |- context [?l] => rewrite H
  end.

Ltac follow_tick :=
  unfold_strategy; unfold calculate_target_price, calculate_sma;
  unfold_client; unfold_monad; unfold subscript, not_none, first_txid, fdiv;
  cbn;
  repeat (use_fact; cbn).


(** ** Shutdown ([handle_shutdown], main.py) *)

(** The process: the global [running] flag and the strategy's world. *)
Record Process : Type := {
  running : bool;
  bot : World
}.

(** [handle_shutdown(strategy)].  [strategy] is [None] when the strategy was
    never constructed, and otherwise stands for the strategy object by its
    [test_mode]; its attributes and its client are those of the world. *)
Definition handle_shutdown (ex : Exchange) (strategy : option bool)
    (p : Process) : Process :=
  let w := bot p in
  match strategy with
  | Some test_mode =>
      if (negb test_mode && truthy (active_order (self w)))%bool then
        let cancelling :=
          try_except
            (order_id <- bind (read active_order) (fun o => lift (not_none o)) ;;
             cancel_order ex order_id)
            (fun _ => ret tt) in
        {| running := false; bot := snd (cancelling w) |}
      else {| running := false; bot := w |}
  | None => {| running := false; bot := w |}
  end.

(** ** More of [KrakenClient] (src/api/kraken_client.py) *)

(** [test_connection]; [server_time] is what [self.kraken.get_server_time()]
    answers. *)
Definition test_connection (ex : Exchange) (server_time : result unit)
    : M bool :=
  try_except
    (lift server_time ;;;
     _ <- get_account_balance ex ;;
     ret true)
    (fun _ => ret false).

(** An outcome whose exception carries its message, [str(e)]. *)
Inductive attempt (A : Type) : Type :=
| Done (a : A)
| Failed (kind : exn) (message : string).
Arguments Done {A} a.
Arguments Failed {A} kind message.

(** [text.startswith(needle)] *)
Fixpoint starts_with (needle text : string) : bool :=
  match needle with
  | EmptyString => true
  | String a needle' =>
      match text with
      | EmptyString => false
      | String b text' => (Ascii.eqb a b && starts_with needle' text')%bool
      end
  end.

(** [needle in text] on strings: [needle] starts at some position of
    [text]. *)
Fixpoint contains (needle text : string) : bool :=
  (starts_with needle text ||
   match text with
   | EmptyString => false
   | String _ text' => contains needle text'
   end)%bool.

Definition unknown_pair_marker : string := "EQuery:Unknown asset pair".

(** [get_ticker_info(pair)]; [public_ticker] is what
    [self.api.query_public('Ticker', ...)] answers, reduced to the list under
    ['error'] (empty when the key is absent), and [ticker_information] is
    what [self.kraken.get_ticker_information(pair)] answers. *)
Definition get_ticker_info {T : Type} (pair : string)
    (public_ticker : attempt (list string)) (ticker_information : attempt T)
    : attempt T :=
  let body :=
    if (String.length pair <? 3)%nat
    then Failed ValueError ("Invalid trading pair format: " ++ pair)
    else
      match public_ticker with
      | Failed kind message => Failed kind message
      | Done [] => ticker_information
      | Done (first_error :: _) =>
          Failed ValueError ("Kraken API error: " ++ first_error)
      end in
  match body with
  | Done ticker => Done ticker
  | Failed kind error_msg =>
      if contains unknown_pair_marker error_msg
      then Failed ValueError ("Unknown trading pair: " ++ pair)
      else Failed kind error_msg
  end.

(** ** Vocabulary of the further properties *)

(** Order submissions and cancellations among a list of calls. *)
Definition is_order (c : call) : bool :=
  match c with
  | AddStandardOrder _ _ _ _ _ => true
  | _ => false
  end.

Definition is_cancel (c : call) : bool :=
  match c with
  | CancelOrder _ => true
  | _ => false
  end.

(** A sell order resting at the average of 100. *)
Definition sell_resting : TradingState :=
  {| active_order := Some "OSELL1"%string; entry_sma := Some (Num 100);
     in_position := true |}.

(** An exchange that reports every order filled and acknowledges every
    placement with an empty order id. *)
Definition empty_id_exchange : Exchange :=
  {| kraken_get_account_balance := fun _ => Raise (ApiError "EAPI:Invalid key");
     kraken_get_ohlc_data := fun _ => Ok (flat_closes 26);
     kraken_add_standard_order := fun _ => Ok (OrderAck (Some [""%string]));
     api_query_private_cancel := fun _ => Ok [];
     kraken_query_orders_info := fun _ =>
       Ok (fun _ => Some (OrderInfo (Some "closed"%string) (Ok (Num 96)))) |}.

(** A position whose sell order came back with an empty id: a buy is placed,
    then reported filled by [empty_id_exchange]. *)
Definition orphaned_position : TradingState :=
  let ex1 := sample_exchange (flat_closes 26) "open"%string 96 false in
  let w1 := snd (tick ex1 sample_config false initial_state []) in
  self (snd (tick empty_id_exchange sample_config false (self w1) (calls w1))).

(** An exchange that cannot be reached: every request raises. *)
Definition down_exchange : Exchange :=
  {| kraken_get_account_balance := fun _ => Raise (ApiError "down");
     kraken_get_ohlc_data := fun _ => Raise (ApiError "down");
     kraken_add_standard_order := fun _ => Raise (ApiError "down");
     api_query_private_cancel := fun _ => Raise (ApiError "down");
     kraken_query_orders_info := fun _ => Raise (ApiError "down") |}.

(** An exchange on which an order rests open at 95, that accepts
    cancellations and refuses every new order. *)
Definition refusing_exchange : Exchange :=
  {| kraken_get_account_balance := fun _ =>
       Ok (fun _ => Some (Ok (Num 1000)));
     kraken_get_ohlc_data := fun _ => Ok (flat_closes 26);
     kraken_add_standard_order := fun _ =>
       Raise (ApiError "EOrder:Insufficient funds");
     api_query_private_cancel := fun _ => Ok [];
     kraken_query_orders_info := fun _ =>
       Ok (fun _ => Some (OrderInfo (Some "open"%string) (Ok (Num 95)))) |}.

(** * The program on binary64 numbers

    The definitions above carry prices as exact rationals, which is enough
    for what the strategy does with its orders.  What it computes with them
    is decided by Python's [float], IEEE-754 binary64 with round to nearest,
    ties to even.  This module is the same program with that arithmetic: a
    finite float is the rational it denotes, every operation rounds its exact
    result with [nearest], and overflow gives an infinity.  The two zeros are
    one number here (no comparison, branch or exception of the program tells
    them apart when the exchange reports no negative zero), and the numbers
    of the configuration are read as floats. *)

Module Float64.

Inductive float : Type :=
| Finite (q : Q)
| Infinite (negative : bool)
| NotANumber.

(** [floor (log2 |q|)], for [q] other than zero. *)
Definition magnitude (q : Q) : Z :=
  let e0 := (Z.log2 (Z.abs (Qnum q)) - Z.log2 (Zpos (Qden q)))%Z in
  if Qle_bool (2 ^ e0) (Qabs q) then e0 else (e0 - 1)%Z.

(** The exponent of the unit in the last place: 53 significant bits, and no
    exponent below that of the subnormal numbers. *)
Definition ulp_exponent (q : Q) : Z := (Z.max (magnitude q) (-1022) - 52)%Z.

Definition is_negative (q : Q) : bool := (Qnum q <? 0)%Z.

(** The binary64 number nearest to [q], ties to the even significand; an
    infinity from [2^1024 - 2^970] on. *)
Definition nearest (q : Q) : float :=
  if Qeq_bool q 0 then Finite 0
  else
    let ex := ulp_exponent q in
    let r := Qred (inject_Z (round_half_even (q / 2 ^ ex)) * 2 ^ ex) in
    if Qle_bool (2 ^ 1024) (Qabs r) then Infinite (is_negative q)
    else Finite r.

(** [float(text)] on what the exchange reports, and a number of the
    configuration as a float. *)
Definition of_reported (x : pyfloat) : float :=
  match x with
  | Num q => nearest q
  | NaN => NotANumber
  end.

Definition of_number (q : Q) : float := nearest q.

(** ** Arithmetic and comparisons *)

Definition neg (a : float) : float :=
  match a with
  | Finite x => Finite (- x)
  | Infinite s => Infinite (negb s)
  | NotANumber => NotANumber
  end.

Definition add (a b : float) : float :=
  match a, b with
  | Finite x, Finite y => nearest (x + y)
  | Infinite s, Infinite s' => if Bool.eqb s s' then Infinite s else NotANumber
  | Infinite s, Finite _ => Infinite s
  | Finite _, Infinite s => Infinite s
  | _, _ => NotANumber
  end.

Definition sub (a b : float) : float := add a (neg b).

Definition mul (a b : float) : float :=
  match a, b with
  | Finite x, Finite y => nearest (x * y)
  | Infinite s, Finite y | Finite y, Infinite s =>
      if Qeq_bool y 0 then NotANumber else Infinite (xorb s (is_negative y))
  | Infinite s, Infinite s' => Infinite (xorb s s')
  | _, _ => NotANumber
  end.

(** The quotient of the machine (C's [/]). *)
Definition div (a b : float) : float :=
  match a, b with
  | Finite x, Finite y =>
      if Qeq_bool y 0
      then if Qeq_bool x 0 then NotANumber else Infinite (is_negative x)
      else nearest (x / y)
  | Finite _, Infinite _ => Finite 0
  | Infinite s, Finite y => Infinite (xorb s (is_negative y))
  | _, _ => NotANumber
  end.

(** [a == b] *)
Definition eqb (a b : float) : bool :=
  match a, b with
  | Finite x, Finite y => Qeq_bool x y
  | Infinite s, Infinite s' => Bool.eqb s s'
  | _, _ => false
  end.

(** [a != b] *)
Definition neb (a b : float) : bool := negb (eqb a b).

(** [a < b] *)
Definition ltb (a b : float) : bool :=
  match a, b with
  | Finite x, Finite y => negb (Qle_bool y x)
  | Infinite true, Finite _ | Finite _, Infinite false => true
  | Infinite true, Infinite false => true
  | _, _ => false
  end.

Definition is_nan (a : float) : bool :=
  match a with
  | NotANumber => true
  | _ => false
  end.

(** [a >= b] *)
Definition geb (a b : float) : bool :=
  (negb (is_nan a) && negb (is_nan b) && negb (ltb a b))%bool.

Definition signbit (a : float) : bool :=
  match a with
  | Finite x => is_negative x
  | Infinite s => s
  | NotANumber => false
  end.

(** Python's [a / b]: a zero divisor raises before anything is computed. *)
Definition truediv (a b : float) : result float :=
  if eqb b (Finite 0) then Raise ZeroDivisionError else Ok (div a b).

(** [round(x, 1)]: the decimal with one digit nearest to the exact value of
    [x], ties to the even digit, then the float nearest to that decimal;
    infinities and NaN round to themselves. *)
Definition py_round1 (x : float) : float :=
  match x with
  | Finite q => nearest (round1 q)
  | _ => x
  end.

(** ** pandas: [Series.rolling(window=w).mean()] on floats

    [roll_mean] with its compensated (Kahan) running sum, one compensation
    for the additions and one for the removals, the count of negative
    samples that guards the sign of the result, and the count of equal
    consecutive samples that returns a constant window as it is. *)

Record mean_state : Type := MeanState {
  nobs : Z;
  sum_x : float;
  neg_ct : Z;
  compensation_add : float;
  compensation_remove : float;
  num_consecutive_same_value : Z;
  prev_value : float
}.

Definition add_mean (val : float) (a : mean_state) : mean_state :=
  if is_nan val then a
  else
    let y := sub val (compensation_add a) in
    let t := add (sum_x a) y in
    {| nobs := nobs a + 1;
       sum_x := t;
       neg_ct := if signbit val then neg_ct a + 1 else neg_ct a;
       compensation_add := sub (sub t (sum_x a)) y;
       compensation_remove := compensation_remove a;
       num_consecutive_same_value :=
         if eqb val (prev_value a) then num_consecutive_same_value a + 1
         else 1;
       prev_value := val |}%Z.

Definition remove_mean (val : float) (a : mean_state) : mean_state :=
  if is_nan val then a
  else
    let y := sub (neg val) (compensation_remove a) in
    let t := add (sum_x a) y in
    {| nobs := nobs a - 1;
       sum_x := t;
       neg_ct := if signbit val then neg_ct a - 1 else neg_ct a;
       compensation_add := compensation_add a;
       compensation_remove := sub (sub t (sum_x a)) y;
       num_consecutive_same_value := num_consecutive_same_value a;
       prev_value := prev_value a |}%Z.

Definition calc_mean (minp : Z) (a : mean_state) : float :=
  if ((minp <=? nobs a)%Z && (0 <? nobs a)%Z)%bool then
    let result := div (sum_x a) (Finite (inject_Z (nobs a))) in
    if (nobs a <=? num_consecutive_same_value a)%Z then prev_value a
    else if ((neg_ct a =? 0)%Z && ltb result (Finite 0))%bool then Finite 0
    else if ((neg_ct a =? nobs a)%Z && ltb (Finite 0) result)%bool
         then Finite 0
    else result
  else NotANumber.

(** [values[j]] for [j] in [lo, hi), folded into the state. *)
Definition over_range (f : float -> mean_state -> mean_state)
    (values : list float) (lo hi : nat) (a : mean_state) : mean_state :=
  fold_left (fun acc j => f (nth j values NotANumber) acc) (seq lo (hi - lo)) a.

Definition fresh_state (prev : float) : mean_state :=
  {| nobs := 0; sum_x := Finite 0; neg_ct := 0;
     compensation_add := Finite 0; compensation_remove := Finite 0;
     num_consecutive_same_value := 0; prev_value := prev |}.

(** One iteration of the kernel's loop, for index [i]: a window that does not
    overlap its predecessor is summed from scratch. *)
Definition roll_step (w : nat) (values : list float) (i : nat) (a : mean_state)
    : mean_state :=
  let s := win_start w i in
  let e := win_end i in
  let restart :=
    match i with
    | O => true
    | S i' => (win_end i' <=? s)%nat
    end in
  if restart then
    over_range add_mean values s e (fresh_state (nth s values NotANumber))
  else
    let a1 := over_range remove_mean values (win_start w (pred i)) s a in
    over_range add_mean values (win_end (pred i)) e a1.

Fixpoint roll_loop (w : nat) (minp : Z) (values : list float) (n i : nat)
    (a : mean_state) : list float :=
  match n with
  | O => []
  | S n' =>
      let a' := roll_step w values i a in
      calc_mean minp a' :: roll_loop w minp values n' (S i) a'
  end.

Definition rolling_mean (w : nat) (values : list float) : list float :=
  roll_loop w (Z.of_nat w) values (List.length values) 0
    (fresh_state NotANumber).

(** [series.iloc[-1]] *)
Definition iloc_last (s : list float) : result float :=
  match s with
  | [] => Raise IndexError
  | x :: _ => Ok (last s x)
  end.

(** [ohlc_data['close'].rolling(window=length).mean().iloc[-1]] on the frame
    that holds, as floats, the closing prices the exchange reported. *)
Definition rolling_mean_last (window : Z) (closes : list Q) : result float :=
  if (window <? 0)%Z then Raise ValueError
  else iloc_last (rolling_mean (Z.to_nat window) (map nearest closes)).

(** ** The world *)

Inductive call : Type :=
| GetAccountBalance
| GetOhlcData (pair : string) (interval : Z)
| AddStandardOrder (pair : string) (type : side) (volume : float)
                   (price : float) (validate : bool)
| CancelOrder (txid : string)
| QueryOrdersInfo (txid : string).

(** One entry of an order query: ['status'], if present, and what
    [float(entry['price'])] is given to read (or how it fails). *)
Record order_info : Type := OrderInfo {
  status : option string;
  price : result pyfloat
}.

Definition balances : Type := string -> option (result pyfloat).

Record Exchange : Type := {
  kraken_get_account_balance : list call -> result balances;
  kraken_get_ohlc_data : list call -> result (list Q);
  kraken_add_standard_order : list call -> result order_ack;
  api_query_private_cancel : list call -> result (list string);
  kraken_query_orders_info : list call -> result (string -> option order_info)
}.

Record TradingState : Type := {
  active_order : option string;
  entry_sma : option float;
  in_position : bool
}.

Record World : Type := {
  self : TradingState;
  calls : list call
}.

Definition M (A : Type) : Type := World -> result A * World.

Definition ret {A} (a : A) : M A := fun w => (Ok a, w).

Definition raise {A} (e : exn) : M A := fun w => (Raise e, w).

Definition bind {A B} (m : M A) (k : A -> M B) : M B :=
  fun w =>
    match m w with
    | (Ok a, w') => k a w'
    | (Raise e, w') => (Raise e, w')
    end.

Definition try_except {A} (m : M A) (h : exn -> M A) : M A :=
  fun w =>
    match m w with
    | (Ok a, w') => (Ok a, w')
    | (Raise e, w') => h e w'
    end.

Definition reraising {A} (m : M A) : M A := try_except m (fun e => raise e).

Definition lift {A} (r : result A) : M A := fun w => (r, w).

Definition ask {A} (c : call) (answer : list call -> result A) : M A :=
  fun w =>
    let h := c :: calls w in
    (answer h, {| self := self w; calls := h |}).

Definition read {A} (field : TradingState -> A) : M A :=
  fun w => (Ok (field (self w)), w).

Definition write (upd : TradingState -> TradingState) : M unit :=
  fun w => (Ok tt, {| self := upd (self w); calls := calls w |}).

Definition set_active_order (v : option string) (s : TradingState) :=
  {| active_order := v; entry_sma := entry_sma s; in_position := in_position s |}.

Definition set_entry_sma (v : option float) (s : TradingState) :=
  {| active_order := active_order s; entry_sma := v; in_position := in_position s |}.

Definition set_in_position (v : bool) (s : TradingState) :=
  {| active_order := active_order s; entry_sma := entry_sma s; in_position := v |}.

Declare Scope py64_scope.
Delimit Scope py64_scope with py64.
Notation "x <- m ;; k" := (bind m (fun x => k))
  (at level 61, m at next level, right associativity) : py64_scope.
Notation "m ;;; k" := (bind m (fun _ => k))
  (at level 61, right associativity) : py64_scope.
Local Open Scope py64_scope.

Section Bot.

Variable ex : Exchange.

(** ** [KrakenClient] *)

Definition get_account_balance : M balances :=
  reraising (ask GetAccountBalance (kraken_get_account_balance ex)).

Definition get_historical_data (pair : string) (interval : Z) : M (list Q) :=
  reraising (ask (GetOhlcData pair interval) (kraken_get_ohlc_data ex)).

Definition place_limit_order (pair : string) (volume : float) (price : float)
    (side : side) (validate : bool) : M order_ack :=
  reraising
    (ask (AddStandardOrder pair side volume price validate)
         (kraken_add_standard_order ex)).

Definition cancel_order (order_id : string) : M unit :=
  reraising
    (response <- ask (CancelOrder order_id) (api_query_private_cancel ex) ;;
     match response with
     | [] => ret tt
     | _ :: _ => raise (ApiError (String.concat ", " response))
     end).

Definition get_order_details (txid : string)
    : M (string -> option order_info) :=
  reraising (ask (QueryOrdersInfo txid) (kraken_query_orders_info ex)).

Definition update_limit_order (pair : string) (volume : float)
    (new_price : float) (order_id : string) (side : side) : M unit :=
  reraising
    (cancel_order order_id ;;;
     _ <- place_limit_order pair volume new_price side false ;;
     ret tt).

(** ** [Indicator] *)

Definition calculate_sma (pair : string) (timeframe : Z) (length : Z)
    : M float :=
  reraising
    (ohlc_data <- get_historical_data pair timeframe ;;
     sma <- lift (rolling_mean_last length ohlc_data) ;;
     ret sma).

(** ** [LimitStrategy] *)

Variable config : Config.
Variable test_mode : bool.

Definition format_price (price : float) : float := py_round1 price.

(** [1 - self.config['depeg_percentage']/100] *)
Definition depeg_factor : float :=
  sub (Finite 1) (div (of_number (depeg_percentage config)) (Finite 100)).

Definition calculate_target_price : M float :=
  reraising
    (sma <- calculate_sma (pair config) 60 (sma_length config) ;;
     let target_price := mul sma depeg_factor in
     let formatted_price := format_price target_price in
     ret formatted_price).

Definition check_balance_for_order : M bool :=
  try_except
    (if test_mode then ret true
     else
       balance <- get_account_balance ;;
       target <- calculate_target_price ;;
       let required := mul (of_number (volume config)) target in
       held <- lift (dict_get balance (base_currency config) (Ok (Num 0))) ;;
       let has_balance := geb (of_reported held) required in
       ret has_balance)
    (fun _ => ret false).

Definition entry_logic : M unit :=
  has_balance <- check_balance_for_order ;;
  if negb has_balance then ret tt
  else
    target_price <- calculate_target_price ;;
    order <- place_limit_order (pair config) (of_number (volume config))
                               target_price buy test_mode ;;
    if test_mode then ret tt
    else
      new_id <- lift (first_txid order) ;;
      write (set_active_order (Some new_id)) ;;;
      sma <- lift (truediv target_price depeg_factor) ;;
      write (set_entry_sma (Some sma)).

Definition order_management : M unit :=
  order_id <- bind (read active_order) (fun o => lift (not_none o)) ;;
  order_details <- get_order_details order_id ;;
  info <- lift (subscript order_details order_id) ;;
  status <- lift (match status info with
                  | Some s => Ok s
                  | None => Raise KeyError
                  end) ;;
  if String.eqb status "closed" then
    positioned <- read in_position ;;
    if negb positioned then
      write (set_in_position true) ;;;
      ref_price <- bind (read entry_sma) (fun p => lift (not_none p)) ;;
      sell_order <- place_limit_order (pair config)
                                      (of_number (volume config))
                                      (format_price ref_price) sell false ;;
      sell_id <- lift (first_txid sell_order) ;;
      write (set_active_order (Some sell_id))
    else
      write (set_in_position false) ;;;
      write (set_active_order None) ;;;
      write (set_entry_sma None)
  else
    positioned <- read in_position ;;
    if negb positioned then
      new_target <- calculate_target_price ;;
      current_price <- lift (price info) ;;
      if neb new_target (of_reported current_price) then
        update_limit_order (pair config) (of_number (volume config))
                           new_target order_id buy ;;;
        write (set_active_order None)
      else ret tt
    else ret tt.

Definition execute_body : M unit :=
  positioned <- read in_position ;;
  order <- read active_order ;;
  if (negb positioned && negb (truthy order))%bool then entry_logic
  else if (truthy order && negb test_mode)%bool then order_management
  else ret tt.

Definition execute : M unit :=
  try_except execute_body (fun _ => ret tt).

End Bot.

Definition initial_state : TradingState :=
  {| active_order := None; entry_sma := None; in_position := false |}.

(** One tick: [execute] run on a trading state, after the calls [past]. *)
Definition tick (ex : Exchange) (config : Config) (test_mode : bool)
    (s : TradingState) (past : list call) : result unit * World :=
  execute ex config test_mode {| self := s; calls := past |}.

End Float64.

(** * Properties *)

(** ** The rolling mean *)

Lemma prefix_sum_S (values : list Q) (k : nat) :
  prefix_sum values (S k) == prefix_sum values k + nth k values 0.
Proof.
  unfold prefix_sum. revert k.
  induction values as [|x values IH]; intros k.
  - destruct k; simpl; ring.
  - destruct k as [|k].
    + simpl. ring.
    + change (x + qsum (firstn (S k) values)
              == x + qsum (firstn k values) + nth k values 0).
      rewrite IH. ring.
Qed.




(** What a run of additions or removals over [lo, lo + n) does. *)
Lemma over_range_add (values : list Q) (n lo : nat) (a : mean_acc) :
  let a' := over_range add_mean values lo (lo + n) a in
  nobs a' = (nobs a + Z.of_nat n)%Z /\
  sum_x a' == sum_x a + (prefix_sum values (lo + n) - prefix_sum values lo).
Proof.
  unfold over_range.
  replace (lo + n - lo)%nat with n by lia.
  induction n as [|n [IHn IHs]].
  - simpl. rewrite Nat.add_0_r. split; [lia | ring].
  - rewrite seq_S, fold_left_app. cbn [fold_left add_mean nobs sum_x].
    rewrite IHn, IHs. split; [lia |].
    rewrite Nat.add_succ_r, prefix_sum_S. ring.
Qed.

Lemma over_range_remove (values : list Q) (n lo : nat) (a : mean_acc) :
  let a' := over_range remove_mean values lo (lo + n) a in
  nobs a' = (nobs a - Z.of_nat n)%Z /\
  sum_x a' == sum_x a - (prefix_sum values (lo + n) - prefix_sum values lo).
Proof.
  unfold over_range.
  replace (lo + n - lo)%nat with n by lia.
  induction n as [|n [IHn IHs]].
  - simpl. rewrite Nat.add_0_r. split; [lia | ring].
  - rewrite seq_S, fold_left_app. cbn [fold_left remove_mean nobs sum_x].
    rewrite IHn, IHs. split; [lia |].
    rewrite Nat.add_succ_r, prefix_sum_S. ring.
Qed.

Lemma roll_step_window (w : nat) (values : list Q) (i : nat) (a : mean_acc) :
  loop_entry w values i a -> window_acc w values i (roll_step w values i a).
Proof.
  unfold window_acc. destruct i as [|i]; cbn [loop_entry roll_step].
  - intros _.
    set (n := (win_end 0 - win_start w 0)%nat).
    assert (E : win_end 0 = (win_start w 0 + n)%nat)
      by (unfold n, win_end, win_start; lia).
    rewrite E.
    destruct (over_range_add values n (win_start w 0) (MeanAcc 0 0))
      as [Hn Hs].
    cbn zeta in Hn, Hs. rewrite Hn, Hs. cbn [nobs sum_x].
    split; [lia | ring].
  - intros [Hn Hs].
    set (d := (win_start w (S i) - win_start w i)%nat).
    assert (E : win_start w (S i) = (win_start w i + d)%nat)
      by (unfold d, win_start; lia).
    assert (E1 : win_end (S i) = (win_end i + 1)%nat)
      by (unfold win_end; lia).
    rewrite E1.
    destruct (over_range_add values 1 (win_end i)
                (over_range remove_mean values (win_start w i)
                   (win_start w (S i)) a)) as [Hn1 Hs1].
    cbn zeta in Hn1, Hs1. rewrite Hn1, Hs1. clear Hn1 Hs1.
    rewrite E.
    destruct (over_range_remove values d (win_start w i) a) as [Hn2 Hs2].
    cbn zeta in Hn2, Hs2. rewrite Hn2, Hs2, Hn, Hs. clear Hn2 Hs2.
    split; [lia | ring].
Qed.

(** The last entry the loop writes is the mean of the last window. *)
Lemma roll_loop_last (w : nat) (minp : Z) (values : list Q) (n i : nat)
    (a : mean_acc) (d : pyfloat) :
  loop_entry w values i a ->
  exists a', window_acc w values (i + n) a' /\
             last (roll_loop w minp values (S n) i a) d = calc_mean minp a'.
Proof.
  revert i a. induction n as [|n IH]; intros i a Ha.
  - exists (roll_step w values i a). rewrite Nat.add_0_r.
    split; [now apply roll_step_window | reflexivity].
  - destruct (IH (S i) (roll_step w values i a)) as (a' & Hw & Hl).
    + now apply roll_step_window.
    + exists a'. split.
      * now rewrite Nat.add_succ_r.
      * rewrite <- Hl. reflexivity.
Qed.

Lemma last_nonempty {A} (l : list A) (x d d' : A) :
  last (x :: l) d = last (x :: l) d'.
Proof.
  revert x. induction l as [|y l IH]; intros x; [reflexivity|].
  change (last (y :: l) d = last (y :: l) d'). apply IH.
Qed.


Lemma rolling_mean_last_short (w : nat) (closes : list Q) :
  (1 <= List.length closes < w)%nat ->
  rolling_mean_last (Z.of_nat w) closes = Ok NaN.
Proof.
  intros [Hpos Hlt]. unfold rolling_mean_last, rolling_mean.
  destruct (Z.ltb_spec (Z.of_nat w) 0) as [Hneg|_]; [lia|].
  rewrite Nat2Z.id.
  destruct (List.length closes) as [|n] eqn:En; [lia|].
  destruct (roll_loop_last w (Z.of_nat w) closes n 0 (MeanAcc 0 0) NaN I)
    as (a' & [Hn Hs] & Hl).
  unfold iloc_last.
  destruct (roll_loop w (Z.of_nat w) closes (S n) 0 (MeanAcc 0 0))
    as [|x xs] eqn:El; [discriminate El|].
  rewrite (last_nonempty xs x x NaN), Hl.
  unfold win_end, win_start in Hn. cbn [Nat.add] in Hn.
  unfold calc_mean.
  destruct (Z.leb_spec (Z.of_nat w) (nobs a')); [lia | reflexivity].
Qed.

Lemma rolling_mean_last_empty (window : Z) :
  (0 <= window)%Z -> rolling_mean_last window [] = Raise IndexError.
Proof.
  intros H. unfold rolling_mean_last.
  destruct (Z.ltb_spec window 0); [lia | reflexivity].
Qed.

(** ** Rounding *)


#[local] Instance round_half_even_comp : Proper (Qeq ==> eq) round_half_even.
Proof.
  intros x y E. unfold round_half_even.
  rewrite (Qfloor_comp x y E).
  assert (E' : x - inject_Z (Qfloor y) == y - inject_Z (Qfloor y))
    by (rewrite E; reflexivity).
  now rewrite (Qcompare_comp _ _ E' _ _ (Qeq_refl (1 # 2))).
Qed.



(** ** What the client and the indicator compute *)

Lemma calculate_sma_run (ex : Exchange) (pair : string) (timeframe length : Z)
    (w : World) :
  let h := GetOhlcData pair timeframe :: calls w in
  calculate_sma ex pair timeframe length w =
  (match kraken_get_ohlc_data ex h with
   | Ok closes => rolling_mean_last length closes
   | Raise e => Raise e
   end,
   {| self := self w; calls := h |}).
Proof.
  unfold calculate_sma. unfold_client. unfold_monad. cbn.
  destruct (kraken_get_ohlc_data ex _); [|reflexivity].
  now destruct (rolling_mean_last length a).
Qed.

Lemma calculate_target_price_run (ex : Exchange) (config : Config) (w : World) :
  let h := GetOhlcData (pair config) 60 :: calls w in
  calculate_target_price ex config w =
  (match kraken_get_ohlc_data ex h with
   | Ok closes =>
       match rolling_mean_last (sma_length config) closes with
       | Ok sma => Ok (format_price (fmul sma (Num (depeg_factor config))))
       | Raise e => Raise e
       end
   | Raise e => Raise e
   end,
   {| self := self w; calls := h |}).
Proof.
  cbn zeta. unfold calculate_target_price, reraising, try_except, bind, ret.
  rewrite calculate_sma_run. cbn zeta.
  destruct (kraken_get_ohlc_data ex _); [|reflexivity].
  now destruct (rolling_mean_last (sma_length config) a).
Qed.

(** ** Claims about the indicator and the target price *)

(** C2 (as the code has it).  A closing-price series that is not empty but
    shorter than the window makes [calculate_sma] return NaN, without raising;
    an empty series makes it raise [IndexError], from [iloc[-1]]. *)
Theorem C2_short_series_yields_nan (ex : Exchange) (pair : string)
    (timeframe : Z) (window : nat) (w : World) (closes : list Q) :
  kraken_get_ohlc_data ex (GetOhlcData pair timeframe :: calls w) = Ok closes ->
  (List.length closes < window)%nat ->
  fst (calculate_sma ex pair timeframe (Z.of_nat window) w) =
  match closes with
  | [] => Raise IndexError
  | _ :: _ => Ok NaN
  end.
Proof.
  intros Hdata Hshort. rewrite calculate_sma_run. cbn zeta. cbn [fst].
  rewrite Hdata. destruct closes as [|c closes].
  - apply rolling_mean_last_empty. lia.
  - apply rolling_mean_last_short. cbn [List.length] in *. lia.
Qed.

Lemma C2_short_series_yields_nan_witness :
  fst (calculate_sma (sample_exchange (flat_closes 10) "open" 96 false)
         "XXBTZUSD" 60 (Z.of_nat 25) {| self := initial_state; calls := [] |})
  = Ok NaN.
Proof.
  apply (C2_short_series_yields_nan
           (sample_exchange (flat_closes 10) "open" 96 false)
           "XXBTZUSD" 60 25 {| self := initial_state; calls := [] |}
           (flat_closes 10)).
  - reflexivity.
  - simpl. lia.
Defined.

(** C2 (as the specification states it) fails: with 10 samples and a window of
    25 no error is raised; the call returns NaN. *)
Lemma C2_no_error_on_short_series :
  let outcome :=
    fst (calculate_sma (sample_exchange (flat_closes 10) "open" 96 false)
           "XXBTZUSD" 60 25 {| self := initial_state; calls := [] |}) in
  outcome = Ok NaN /\ ~ (exists e, outcome = Raise e).
Proof.
  cbn zeta. split.
  - vm_compute. reflexivity.
  - intros [e He]. vm_compute in He. discriminate He.
Qed.



(** The example of the specification: 26 samples of 100.0, window 25. *)
Example sma_of_flat_series :
  exists m,
    fst (calculate_sma (sample_exchange (flat_closes 26) "open" 96 false)
           "XXBTZUSD" 60 25 {| self := initial_state; calls := [] |})
    = Ok (Num m) /\ m == 100.
Proof. eexists. split; [vm_compute; reflexivity | reflexivity]. Qed.



(** ** The tick *)

(** [execute] ends normally whatever happens inside it. *)
Lemma execute_never_raises (ex : Exchange) (config : Config) (test_mode : bool)
    (w : World) :
  fst (execute ex config test_mode w) = Ok tt.
Proof.
  unfold execute, try_except, ret.
  destruct (execute_body ex config test_mode w) as [[[]|e] w']; reflexivity.
Qed.



(** How far failure atomicity goes: when the [try] block raises, the trading
    state is the one before the tick, except that a fill detected in this tick
    has already been recorded in [in_position]. *)
Lemma failed_tick_effect (ex : Exchange) (config : Config) (test_mode : bool)
    (w : World) :
  Qeq_bool (depeg_factor config) 0 = false ->
  match execute_body ex config test_mode w with
  | (Ok _, _) => True
  | (Raise _, w') =>
      self w' = self w \/
      (test_mode = false /\ in_position (self w) = false /\
       truthy (active_order (self w)) = true /\
       self w' = set_in_position true (self w))
  end.
Proof.
  intros Hd. destruct w as [[ao es ip] past].
  run_tick; auto; right;
    match goal with
    | H : context [String.eqb ?s ""] |- _ =>
        destruct ip, test_mode, (String.eqb s ""); cbn in *;
        try discriminate; auto
    end.
Qed.

(** C1 (the defect).  A buy order is resting, the exchange reports it closed
    and then refuses the sell order: the exception is absorbed by [execute],
    but [in_position] has already been set, so the trading state after the
    failed tick is not the state before it. *)
Theorem C1_failed_sell_placement_changes_state :
  let ex := sample_exchange (flat_closes 26) "closed" 96 true in
  let w := {| self := buy_pending; calls := [] |} in
  fst (execute_body ex sample_config false w)
    = Raise (ApiError "EService:Unavailable") /\
  fst (execute ex sample_config false w) = Ok tt /\
  self (snd (execute ex sample_config false w))
    = set_in_position true buy_pending /\
  self (snd (execute ex sample_config false w)) <> buy_pending.
Proof.
  cbn zeta. repeat split; try (vm_compute; reflexivity).
  vm_compute. discriminate.
Qed.

(** C10.  In live mode, with a buy order resting and reported ['closed'], a
    sell placement that raises leaves [in_position] set and [active_order] on
    the filled buy order; the next tick on which the exchange reports that
    order ['closed'] clears [active_order], [entry_sma] and [in_position].
    The only sell order ever submitted is the one that was refused. *)
Theorem C10_refused_sell_drops_position (ex : Exchange) (config : Config)
    (s : TradingState) (past : list call) (id : string) (p : pyfloat)
    (details details' : string -> option order_info) (info info' : order_info)
    (e : exn) :
  active_order s = Some id -> id <> ""%string ->
  in_position s = false ->
  entry_sma s = Some p ->
  let h1 := QueryOrdersInfo id :: past in
  kraken_query_orders_info ex h1 = Ok details ->
  details id = Some info ->
  status info = Some "closed"%string ->
  let h2 := AddStandardOrder (pair config) sell (volume config)
                             (format_price p) false :: h1 in
  kraken_add_standard_order ex h2 = Raise e ->
  let h3 := QueryOrdersInfo id :: h2 in
  kraken_query_orders_info ex h3 = Ok details' ->
  details' id = Some info' ->
  status info' = Some "closed"%string ->
  let w1 := snd (tick ex config false s past) in
  let w2 := snd (tick ex config false (self w1) (calls w1)) in
  self w1 = {| active_order := Some id; entry_sma := Some p;
               in_position := true |} /\
  calls w1 = h2 /\
  self w2 = initial_state /\
  calls w2 = h3.
Proof.
  intros Hid Hne Hpos Hsma h1 Hq Hinfo Hst h2 Hsell h3 Hq' Hinfo' Hst' w1 w2.
  destruct s as [ao es ip]. cbn [active_order in_position entry_sma] in *.
  subst ao ip es. apply String.eqb_neq in Hne.
  assert (E1 : w1 = {| self := {| active_order := Some id; entry_sma := Some p;
                                  in_position := true |};
                       calls := h2 |}).
  { subst w1 h1 h2 h3. follow_tick. reflexivity. }
  subst w2. rewrite E1. cbn [self calls].
  repeat split; try reflexivity; subst h1 h2 h3; follow_tick; reflexivity.
Qed.

Lemma C10_refused_sell_drops_position_witness :
  let ex := sample_exchange (flat_closes 26) "closed" 96 true in
  let w1 := snd (tick ex sample_config false buy_pending []) in
  let w2 := snd (tick ex sample_config false (self w1) (calls w1)) in
  self w1 = {| active_order := Some "OBUY01"%string;
               entry_sma := Some (Num 100); in_position := true |} /\
  calls w1 = [AddStandardOrder "XXBTZUSD" sell (1 # 1000)
                (format_price (Num 100)) false;
              QueryOrdersInfo "OBUY01"] /\
  self w2 = initial_state /\
  calls w2 = [QueryOrdersInfo "OBUY01";
              AddStandardOrder "XXBTZUSD" sell (1 # 1000)
                (format_price (Num 100)) false;
              QueryOrdersInfo "OBUY01"].
Proof.
  exact (C10_refused_sell_drops_position
           (sample_exchange (flat_closes 26) "closed" 96 true)
           sample_config buy_pending [] "OBUY01"%string (Num 100)
           (fun _ => Some (OrderInfo (Some "closed"%string) (Ok (Num 96))))
           (fun _ => Some (OrderInfo (Some "closed"%string) (Ok (Num 96))))
           (OrderInfo (Some "closed"%string) (Ok (Num 96)))
           (OrderInfo (Some "closed"%string) (Ok (Num 96)))
           (ApiError "EService:Unavailable")
           eq_refl ltac:(discriminate) eq_refl eq_refl eq_refl eq_refl eq_refl
           eq_refl eq_refl eq_refl eq_refl).
Defined.

(** ** Simulation mode *)

Lemma dry_tick_keeps_state (ex : Exchange) (config : Config)
    (s : TradingState) (past : list call) :
  self (snd (tick ex config true s past)) = s.
Proof. destruct s as [ao es ip]. run_tick; reflexivity. Qed.

Lemma dry_tick_calls (ex : Exchange) (config : Config) (s : TradingState)
    (past : list call) :
  exists new, calls (snd (tick ex config true s past)) = new ++ past /\
              forallb dry_call new = true.
Proof.
  destruct s as [ao es ip].
  run_tick;
    first [ now exists []
          | now eexists [_]
          | now eexists [_; _] ].
Qed.

Lemma dry_ticks_keep_state (ex : Exchange) (config : Config) (n : nat)
    (s : TradingState) (past : list call) :
  self (ticks ex config true n s past) = s.
Proof.
  revert s past. induction n as [|n IH]; intros s past; [reflexivity|].
  cbn [ticks]. rewrite IH. apply dry_tick_keeps_state.
Qed.

(** C8.  In simulation mode a tick never changes [active_order],
    [in_position] or [entry_sma], from any state and however often it is
    repeated; all it asks of the exchange is market data and the validation of
    orders (no live order, no order query, no cancellation); and from IDLE,
    when the SMA is available, it submits exactly one validate-only buy order
    at the target price. *)
Theorem C8_simulation_never_commits (ex : Exchange) (config : Config)
    (s : TradingState) (past : list call) :
  let w' := snd (tick ex config true s past) in
  self w' = s /\
  (forall n, self (ticks ex config true n s past) = s) /\
  (exists new, calls w' = new ++ past /\ forallb dry_call new = true) /\
  (forall closes sma,
     active_order s = None -> in_position s = false ->
     kraken_get_ohlc_data ex (GetOhlcData (pair config) 60 :: past) = Ok closes ->
     rolling_mean_last (sma_length config) closes = Ok sma ->
     calls w' =
       AddStandardOrder (pair config) buy (volume config)
         (format_price (fmul sma (Num (depeg_factor config)))) true
       :: GetOhlcData (pair config) 60 :: past).
Proof.
  cbn zeta. split; [apply dry_tick_keeps_state|].
  split; [intros n; apply dry_ticks_keep_state|].
  split; [apply dry_tick_calls|].
  intros closes sma Hao Hip Hdata Hsma.
  destruct s as [ao es ip]. cbn [active_order in_position] in *. subst ao ip.
  follow_tick. now destruct (kraken_add_standard_order ex _).
Qed.

Lemma C8_simulation_never_commits_witness :
  let ex := sample_exchange (flat_closes 26) "open" 96 false in
  let w' := snd (tick ex sample_config true initial_state []) in
  self w' = initial_state /\
  calls w' = [AddStandardOrder "XXBTZUSD" buy (1 # 1000)
                (format_price (fmul (Num (2500 # 25))
                                 (Num (depeg_factor sample_config)))) true;
              GetOhlcData "XXBTZUSD" 60].
Proof.
  destruct (C8_simulation_never_commits
              (sample_exchange (flat_closes 26) "open" 96 false)
              sample_config initial_state []) as (Hs & _ & _ & Hc).
  cbn zeta. split; [exact Hs|].
  apply (Hc (flat_closes 26) (Num (2500 # 25)) eq_refl eq_refl eq_refl).
  vm_compute. reflexivity.
Defined.

(** ** The invariant of the trading state *)

Lemma well_formed_initial : well_formed initial_state.
Proof. split; cbn; intros H; discriminate H. Qed.

Lemma well_formed_tick (ex : Exchange) (config : Config) (test_mode : bool)
    (s : TradingState) (past : list call) :
  Qeq_bool (depeg_factor config) 0 = false ->
  well_formed s -> well_formed (self (snd (tick ex config test_mode s past))).
Proof.
  intros Hd. destruct s as [ao es ip]. unfold well_formed.
  run_tick; cbn in *; intros [H1 H2];
    repeat match goal with
           | H : context [String.eqb ?s ""] |- _ =>
               destruct (String.eqb s "")
           | b : bool |- _ => destruct b
           end;
    cbn in *; try discriminate; intuition congruence.
Qed.

Lemma depeg_factor_nonzero (config : Config) :
  ~ depeg_percentage config == 100 ->
  Qeq_bool (depeg_factor config) 0 = false.
Proof.
  intros Hd. destruct (Qeq_bool (depeg_factor config) 0) eqn:E; [|reflexivity].
  exfalso. apply Hd.
  apply Qeq_bool_iff in E. unfold depeg_factor, Qdiv in E.
  setoid_replace (/ 100) with (1 # 100) in E by reflexivity. lra.
Qed.

Lemma reachable_well_formed (config : Config) (test_mode : bool)
    (s : TradingState) :
  ~ depeg_percentage config == 100 ->
  reachable config test_mode s -> well_formed s.
Proof.
  intros Hd Hr. induction Hr as [|ex s past _ IH].
  - apply well_formed_initial.
  - apply well_formed_tick; [now apply depeg_factor_nonzero | exact IH].
Qed.

(** C9.  In every trading state reachable from the initial one, whatever the
    exchange answers, in either mode, and for every depeg percentage other
    than 100 (so for all of the configured range, 0 up to but excluding 100):
    if [in_position] is set then [entry_sma] is set and [active_order] is
    set. *)
Theorem C9_position_has_reference_and_order (config : Config)
    (test_mode : bool) (s : TradingState) :
  ~ depeg_percentage config == 100 ->
  reachable config test_mode s ->
  in_position s = true ->
  entry_sma s <> None /\ active_order s <> None.
Proof.
  intros Hd Hr Hp. destruct (reachable_well_formed config test_mode s Hd Hr)
    as [_ H]. exact (H Hp).
Qed.

Lemma C9_position_has_reference_and_order_witness :
  in_position opened_position = true /\
  entry_sma opened_position <> None /\ active_order opened_position <> None.
Proof.
  split; [vm_compute; reflexivity|].
  apply (C9_position_has_reference_and_order sample_config false).
  - cbn. intros H. discriminate H.
  - unfold opened_position. cbn zeta. do 2 apply reachable_tick.
    apply reachable_initial.
  - vm_compute. reflexivity.
Defined.

(** ** Entering and re-pricing *)






(** An unchanged target leaves the resting order alone. *)
Example resting_order_kept_when_price_is_equal :
  let ex := sample_exchange (flat_closes 26) "open" 96 false in
  let w' := snd (tick ex sample_config false buy_pending []) in
  self w' = buy_pending /\
  calls w' = [GetOhlcData "XXBTZUSD" 60; QueryOrdersInfo "OBUY01"].
Proof. cbn zeta. split; vm_compute; reflexivity. Qed.

(** * Further properties of the code *)

(** ** The position leg of the tick *)

(** X1.  With a sell order resting in live mode and the exchange reporting it
    ['closed'], the tick clears [active_order], [entry_sma] and [in_position]
    and asks the exchange nothing but the order's details. *)
Theorem X1_filled_sell_returns_to_idle (ex : Exchange) (config : Config)
    (s : TradingState) (past : list call) (id : string)
    (details : string -> option order_info) (info : order_info) :
  active_order s = Some id -> id <> ""%string ->
  in_position s = true ->
  let h1 := QueryOrdersInfo id :: past in
  kraken_query_orders_info ex h1 = Ok details ->
  details id = Some info ->
  status info = Some "closed"%string ->
  let w' := snd (tick ex config false s past) in
  self w' = initial_state /\ calls w' = h1.
Proof.
  intros Hid Hne Hpos h1 Hq Hinfo Hst w'.
  destruct s as [ao es ip]. cbn [active_order in_position] in *.
  subst ao ip w' h1. apply String.eqb_neq in Hne.
  follow_tick. split; reflexivity.
Qed.

Lemma X1_filled_sell_returns_to_idle_witness :
  let w' := snd (tick (sample_exchange (flat_closes 26) "closed" 100 false)
                   sample_config false sell_resting []) in
  self w' = initial_state /\ calls w' = [QueryOrdersInfo "OSELL1"].
Proof.
  exact (X1_filled_sell_returns_to_idle
           (sample_exchange (flat_closes 26) "closed" 100 false)
           sample_config sell_resting [] "OSELL1"%string
           (fun _ => Some (OrderInfo (Some "closed"%string) (Ok (Num 100))))
           (OrderInfo (Some "closed"%string) (Ok (Num 100)))
           eq_refl ltac:(discriminate) eq_refl eq_refl eq_refl eq_refl).
Defined.

(** X2.  While [in_position] is set a tick never places and never cancels an
    order, whatever the exchange answers and in either mode: it makes no call
    at all or only queries the active order, and it leaves the trading state
    as it is or resets it to the initial one. *)
Theorem X2_position_is_never_repriced (ex : Exchange) (config : Config)
    (test_mode : bool) (s : TradingState) (past : list call) :
  in_position s = true ->
  let w' := snd (tick ex config test_mode s past) in
  (self w' = s \/ self w' = initial_state) /\
  (calls w' = past \/
   exists id, active_order s = Some id /\ calls w' = QueryOrdersInfo id :: past).
Proof.
  intros Hpos. destruct s as [ao es ip]. cbn [in_position] in Hpos. subst ip.
  run_tick; split; auto; right; eexists; split; reflexivity.
Qed.

Lemma X2_position_is_never_repriced_witness :
  let w' := snd (tick (sample_exchange (flat_closes 26) "open" 100 false)
                   sample_config false sell_resting []) in
  (self w' = sell_resting \/ self w' = initial_state) /\
  (calls w' = [] \/
   exists id, active_order sell_resting = Some id /\
              calls w' = [QueryOrdersInfo id]).
Proof.
  exact (X2_position_is_never_repriced
           (sample_exchange (flat_closes 26) "open" 100 false)
           sample_config false sell_resting [] eq_refl).
Defined.

(** X3.  A position whose [active_order] is [None] or the empty string is
    never looked at again: every tick, in either mode, makes no call and
    writes nothing, however many follow. *)
Theorem X3_orderless_position_is_stuck (ex : Exchange) (config : Config)
    (test_mode : bool) (n : nat) (s : TradingState) (past : list call) :
  in_position s = true ->
  truthy (active_order s) = false ->
  ticks ex config test_mode n s past = {| self := s; calls := past |}.
Proof.
  intros Hpos Hfalsy. induction n as [|n IH]; [reflexivity|].
  cbn [ticks].
  assert (E : snd (tick ex config test_mode s past)
              = {| self := s; calls := past |}).
  { destruct s as [ao es ip]. cbn [in_position active_order] in *. subst ip.
    unfold_strategy. unfold_monad. cbn. rewrite Hfalsy. reflexivity. }
  rewrite E. exact IH.
Qed.

Lemma X3_orderless_position_is_stuck_witness :
  reachable sample_config false orphaned_position /\
  ticks (sample_exchange (flat_closes 26) "closed" 100 false) sample_config
        false 5 orphaned_position []
  = {| self := orphaned_position; calls := [] |}.
Proof.
  split.
  - unfold orphaned_position. cbn zeta. do 2 apply reachable_tick.
    apply reachable_initial.
  - apply (X3_orderless_position_is_stuck
             (sample_exchange (flat_closes 26) "closed" 100 false)
             sample_config false 5 orphaned_position []).
    + vm_compute. reflexivity.
    + vm_compute. reflexivity.
Defined.

(** ** The entry leg of the tick *)



(** X5.  From IDLE in live mode, a balance request that raises is taken as
    "no balance": the tick ends normally after that one call, with no market
    data fetched, no order placed and nothing written. *)
Theorem X5_failed_balance_request_skips_entry (ex : Exchange)
    (config : Config) (s : TradingState) (past : list call) (e : exn) :
  in_position s = false -> truthy (active_order s) = false ->
  let h1 := GetAccountBalance :: past in
  kraken_get_account_balance ex h1 = Raise e ->
  tick ex config false s past = (Ok tt, {| self := s; calls := h1 |}).
Proof.
  intros Hip Hfalsy h1 Hbal.
  destruct s as [ao es ip]. cbn [active_order in_position] in *.
  subst ip h1. follow_tick. reflexivity.
Qed.

Lemma X5_failed_balance_request_skips_entry_witness :
  tick empty_id_exchange sample_config false initial_state []
  = (Ok tt, {| self := initial_state; calls := [GetAccountBalance] |}).
Proof.
  exact (X5_failed_balance_request_skips_entry empty_id_exchange sample_config
           initial_state [] (ApiError "EAPI:Invalid key")
           eq_refl eq_refl eq_refl).
Defined.

(** X6.  From IDLE in live mode, a series that is not empty but shorter than
    the window makes the SMA NaN, the required amount NaN and the balance
    comparison false: no order is placed on an undefined average. *)
Theorem X6_live_entry_refuses_undefined_sma (ex : Exchange) (config : Config)
    (window : nat) (s : TradingState) (past : list call) (balance : balances)
    (held : pyfloat) (closes : list Q) :
  in_position s = false -> truthy (active_order s) = false ->
  sma_length config = Z.of_nat window ->
  let h1 := GetAccountBalance :: past in
  kraken_get_account_balance ex h1 = Ok balance ->
  dict_get balance (base_currency config) (Ok (Num 0)) = Ok held ->
  let h2 := GetOhlcData (pair config) 60 :: h1 in
  kraken_get_ohlc_data ex h2 = Ok closes ->
  (1 <= List.length closes < window)%nat ->
  let w' := snd (tick ex config false s past) in
  self w' = s /\ calls w' = h2.
Proof.
  intros Hip Hfalsy Hw h1 Hbal Hheld h2 Hc Hshort w'.
  assert (Hs : rolling_mean_last (sma_length config) closes = Ok NaN)
    by (rewrite Hw; now apply rolling_mean_last_short).
  assert (Hf : fge held
                 (fmul (Num (volume config))
                    (format_price (fmul NaN (Num (depeg_factor config)))))
               = false) by (destruct held; reflexivity).
  destruct s as [ao es ip]. cbn [active_order in_position] in *.
  subst ip w' h2 h1. follow_tick. split; reflexivity.
Qed.

Lemma X6_live_entry_refuses_undefined_sma_witness :
  let w' := snd (tick (sample_exchange (flat_closes 10) "open" 96 false)
                   sample_config false initial_state []) in
  self w' = initial_state /\
  calls w' = [GetOhlcData "XXBTZUSD" 60; GetAccountBalance].
Proof.
  refine (X6_live_entry_refuses_undefined_sma
            (sample_exchange (flat_closes 10) "open" 96 false) sample_config
            25 initial_state []
            (fun k => if String.eqb k "ZUSD" then Some (Ok (Num 1000)) else None)
            (Num 1000) (flat_closes 10)
            eq_refl eq_refl eq_refl eq_refl eq_refl eq_refl _).
  simpl. lia.
Defined.

(** X7.  In simulation mode the balance check is skipped, so the same short
    series does reach the exchange: from IDLE the tick sends a validate-only
    buy order whose price is NaN. *)
Theorem X7_dry_run_validates_undefined_price (ex : Exchange) (config : Config)
    (window : nat) (s : TradingState) (past : list call) (closes : list Q) :
  in_position s = false -> truthy (active_order s) = false ->
  sma_length config = Z.of_nat window ->
  let h1 := GetOhlcData (pair config) 60 :: past in
  kraken_get_ohlc_data ex h1 = Ok closes ->
  (1 <= List.length closes < window)%nat ->
  calls (snd (tick ex config true s past))
  = AddStandardOrder (pair config) buy (volume config) NaN true :: h1.
Proof.
  intros Hip Hfalsy Hw h1 Hc Hshort.
  assert (Hs : rolling_mean_last (sma_length config) closes = Ok NaN)
    by (rewrite Hw; now apply rolling_mean_last_short).
  destruct s as [ao es ip]. cbn [active_order in_position] in *.
  subst ip h1. follow_tick.
  now destruct (kraken_add_standard_order ex _).
Qed.

Lemma X7_dry_run_validates_undefined_price_witness :
  calls (snd (tick (sample_exchange (flat_closes 10) "open" 96 false)
                sample_config true initial_state []))
  = [AddStandardOrder "XXBTZUSD" buy (1 # 1000) NaN true;
     GetOhlcData "XXBTZUSD" 60].
Proof.
  refine (X7_dry_run_validates_undefined_price
            (sample_exchange (flat_closes 10) "open" 96 false) sample_config
            25 initial_state [] (flat_closes 10)
            eq_refl eq_refl eq_refl eq_refl _).
  simpl. lia.
Defined.

(** ** What a single tick can ask of the exchange *)

(** X8.  Whatever the state, the mode and the exchange's answers, one tick
    makes at most four calls, submits at most one order and cancels at most
    one. *)
Theorem X8_one_order_per_tick (ex : Exchange) (config : Config)
    (test_mode : bool) (s : TradingState) (past : list call) :
  exists new,
    calls (snd (tick ex config test_mode s past)) = new ++ past /\
    (List.length new <= 4)%nat /\
    (List.length (filter is_order new) <= 1)%nat /\
    (List.length (filter is_cancel new) <= 1)%nat.
Proof.
  destruct s as [ao es ip].
  run_tick;
    first [ exists []; split; [reflexivity | cbn; lia]
          | eexists [_]; split; [reflexivity | cbn; lia]
          | eexists [_; _]; split; [reflexivity | cbn; lia]
          | eexists [_; _; _]; split; [reflexivity | cbn; lia]
          | eexists [_; _; _; _]; split; [reflexivity | cbn; lia] ].
Qed.

(** ** Prices *)

Lemma round_half_even_monotone (x y : Q) :
  x <= y -> (round_half_even x <= round_half_even y)%Z.
Proof.
  intros Hxy. unfold round_half_even.
  pose proof (Qfloor_resp_le x y Hxy) as Hf.
  pose proof (Qfloor_le x) as Hxl. pose proof (Qlt_floor x) as Hxh.
  pose proof (Qfloor_le y) as Hyl. pose proof (Qlt_floor y) as Hyh.
  rewrite inject_Z_plus in Hxh, Hyh. change (inject_Z 1) with 1 in Hxh, Hyh.
  destruct (Z.eq_dec (Qfloor x) (Qfloor y)) as [E|N].
  - rewrite E in *.
    destruct (Qcompare_spec (x - inject_Z (Qfloor y)) (1 # 2));
      destruct (Qcompare_spec (y - inject_Z (Qfloor y)) (1 # 2));
      destruct (Z.even (Qfloor y)); try lia; exfalso; lra.
  - assert (Qfloor x + 1 <= Qfloor y)%Z by lia.
    destruct (Qcompare (x - inject_Z (Qfloor x)) (1 # 2));
      destruct (Qcompare (y - inject_Z (Qfloor y)) (1 # 2));
      destruct (Z.even (Qfloor x)); destruct (Z.even (Qfloor y)); lia.
Qed.

Lemma round_half_even_integer (n : Z) : round_half_even (inject_Z n) = n.
Proof.
  unfold round_half_even. rewrite Qfloor_Z.
  assert (E : inject_Z n - inject_Z n == 0) by ring.
  rewrite (Qcompare_comp _ _ E _ _ (Qeq_refl (1 # 2))). reflexivity.
Qed.

Lemma round1_monotone (x y : Q) : x <= y -> round1 x <= round1 y.
Proof.
  intros Hxy. unfold round1, Qdiv.
  apply Qmult_le_compat_r; [|discriminate].
  rewrite <- Zle_Qle. apply round_half_even_monotone. lra.
Qed.

Lemma round1_idempotent (x : Q) : round1 (round1 x) == round1 x.
Proof.
  unfold round1 at 1.
  assert (E : round1 x * 10 == inject_Z (round_half_even (x * 10)))
    by (unfold round1; field).
  rewrite E, round_half_even_integer. reflexivity.
Qed.

Lemma round1_zero : round1 0 == 0.
Proof. reflexivity. Qed.

Lemma depeg_factor_range (config : Config) :
  0 <= depeg_percentage config < 100 ->
  0 < depeg_factor config <= 1.
Proof.
  intros Hd. unfold depeg_factor, Qdiv.
  setoid_replace (/ 100) with (1 # 100) by reflexivity. lra.
Qed.

(** X9.  For an SMA that is not negative and a depeg percentage in [0, 100),
    the price at which [execute] will offer the position for sale, the
    rounded [entry_sma] it derives from the buy price, is never below that
    buy price. *)
Theorem X9_sell_price_not_below_buy_price (config : Config) (sma : Q) :
  0 <= sma ->
  0 <= depeg_percentage config < 100 ->
  let buy_price := format_price (fmul (Num sma) (Num (depeg_factor config))) in
  exists b reference s,
    buy_price = Num b /\
    fdiv buy_price (Num (depeg_factor config)) = Ok (Num reference) /\
    format_price (Num reference) = Num s /\
    0 <= b /\ b <= s.
Proof.
  intros Hsma Hd. cbn zeta.
  pose proof (depeg_factor_range config Hd) as [Hpos Hle].
  set (f := depeg_factor config) in *.
  set (b := round1 (sma * f)).
  assert (Hnz : Qeq_bool f 0 = false).
  { destruct (Qeq_bool f 0) eqn:E; [|reflexivity].
    apply Qeq_bool_iff in E. lra. }
  assert (Hb : 0 <= b).
  { rewrite <- round1_zero. apply round1_monotone. nra. }
  exists b, (b / f), (round1 (b / f)).
  split; [reflexivity|]. split; [cbn; now rewrite Hnz|].
  split; [reflexivity|]. split; [exact Hb|].
  apply Qle_trans with (round1 b).
  - unfold b. rewrite round1_idempotent. apply Qle_refl.
  - apply round1_monotone.
    apply Qle_shift_div_l; [exact Hpos | nra].
Qed.

Lemma X9_sell_price_not_below_buy_price_witness :
  exists b reference s,
    format_price (fmul (Num 100) (Num (depeg_factor sample_config))) = Num b /\
    fdiv (format_price (fmul (Num 100) (Num (depeg_factor sample_config))))
         (Num (depeg_factor sample_config)) = Ok (Num reference) /\
    format_price (Num reference) = Num s /\
    0 <= b /\ b <= s.
Proof.
  apply (X9_sell_price_not_below_buy_price sample_config 100).
  - discriminate.
  - cbn. lra.
Defined.

(** X10.  For an SMA that is not negative and a depeg percentage that is not
    negative, the target price is never above the SMA rounded to the same
    precision, and never negative. *)
Theorem X10_target_price_not_above_sma (ex : Exchange) (config : Config)
    (w : World) (closes : list Q) (sma : Q) :
  kraken_get_ohlc_data ex (GetOhlcData (pair config) 60 :: calls w) = Ok closes ->
  rolling_mean_last (sma_length config) closes = Ok (Num sma) ->
  0 <= sma ->
  0 <= depeg_percentage config <= 100 ->
  exists target,
    fst (calculate_target_price ex config w) = Ok (Num target) /\
    0 <= target /\ target <= round1 sma.
Proof.
  intros Hc Hs Hsma Hd.
  rewrite calculate_target_price_run. cbn zeta. cbn [fst]. rewrite Hc, Hs.
  assert (Hf : 0 <= depeg_factor config <= 1).
  { unfold depeg_factor, Qdiv.
    setoid_replace (/ 100) with (1 # 100) by reflexivity. lra. }
  exists (round1 (sma * depeg_factor config)). split; [reflexivity|]. split.
  - rewrite <- round1_zero. apply round1_monotone. nra.
  - apply round1_monotone. nra.
Qed.

Lemma X10_target_price_not_above_sma_witness :
  exists target,
    fst (calculate_target_price
           (sample_exchange (flat_closes 26) "open" 96 false) sample_config
           {| self := initial_state; calls := [] |}) = Ok (Num target) /\
    0 <= target /\ target <= round1 (2500 # 25).
Proof.
  apply (X10_target_price_not_above_sma
           (sample_exchange (flat_closes 26) "open" 96 false) sample_config
           {| self := initial_state; calls := [] |} (flat_closes 26)).
  - reflexivity.
  - vm_compute. reflexivity.
  - discriminate.
  - cbn. lra.
Defined.

(** ** The indicator *)








(** X13.  A market-data request that raises makes [calculate_target_price]
    raise the same exception, after that single request and without touching
    the trading state; inside a tick from IDLE in simulation mode the
    exception stops there: the tick ends normally and no order is sent. *)
Theorem X13_data_failure_propagates_then_stops (ex : Exchange)
    (config : Config) (s : TradingState) (past : list call) (e : exn) :
  let h1 := GetOhlcData (pair config) 60 :: past in
  kraken_get_ohlc_data ex h1 = Raise e ->
  calculate_target_price ex config {| self := s; calls := past |}
    = (Raise e, {| self := s; calls := h1 |}) /\
  (in_position s = false -> truthy (active_order s) = false ->
   tick ex config true s past = (Ok tt, {| self := s; calls := h1 |})).
Proof.
  intros h1 Hc. split.
  - rewrite calculate_target_price_run. cbn zeta. cbn [calls self].
    fold h1. now rewrite Hc.
  - intros Hip Hfalsy. destruct s as [ao es ip].
    cbn [active_order in_position] in *. subst ip h1.
    follow_tick. reflexivity.
Qed.

Lemma X13_data_failure_propagates_then_stops_witness :
  tick down_exchange sample_config true initial_state []
  = (Ok tt, {| self := initial_state;
               calls := [GetOhlcData "XXBTZUSD" 60] |}).
Proof.
  exact (proj2 (X13_data_failure_propagates_then_stops down_exchange
                  sample_config initial_state [] (ApiError "down") eq_refl)
           eq_refl eq_refl).
Defined.

(** ** Replacing an order *)

(** X14.  [update_limit_order] places the new order only once the exchange
    has accepted the cancellation, and always as a live order.  A
    cancellation that raises or reports errors is raised with nothing placed;
    a placement that raises is raised with the old order already cancelled. *)
Theorem X14_update_is_cancel_then_place (ex : Exchange) (pair : string)
    (volume : Q) (new_price : pyfloat) (order_id : string) (side : side)
    (w : World) :
  let h1 := CancelOrder order_id :: calls w in
  let h2 := AddStandardOrder pair side volume new_price false :: h1 in
  update_limit_order ex pair volume new_price order_id side w =
  match api_query_private_cancel ex h1 with
  | Ok [] =>
      (match kraken_add_standard_order ex h2 with
       | Ok _ => Ok tt
       | Raise e => Raise e
       end,
       {| self := self w; calls := h2 |})
  | Ok (error :: errors) =>
      (Raise (ApiError (String.concat ", " (error :: errors))),
       {| self := self w; calls := h1 |})
  | Raise e => (Raise e, {| self := self w; calls := h1 |})
  end.
Proof.
  cbn zeta. unfold_client. unfold_monad. cbn.
  destruct (api_query_private_cancel ex _) as [[|error errors]|e]; cbn;
    try reflexivity.
  now destruct (kraken_add_standard_order ex _).
Qed.

(** X15.  Re-pricing is not atomic.  When the resting buy order is cancelled
    but the replacement is refused, the tick ends normally with the trading
    state untouched: [active_order] still names the order that has just been
    cancelled. *)
Theorem X15_refused_replacement_keeps_cancelled_id (ex : Exchange)
    (config : Config) (s : TradingState) (past : list call) (id : string)
    (details : string -> option order_info) (info : order_info)
    (reported : string) (closes : list Q) (sma current : pyfloat) (e : exn) :
  active_order s = Some id -> id <> ""%string ->
  in_position s = false ->
  let h1 := QueryOrdersInfo id :: past in
  kraken_query_orders_info ex h1 = Ok details ->
  details id = Some info ->
  status info = Some reported -> reported <> "closed"%string ->
  let h2 := GetOhlcData (pair config) 60 :: h1 in
  kraken_get_ohlc_data ex h2 = Ok closes ->
  rolling_mean_last (sma_length config) closes = Ok sma ->
  price info = Ok current ->
  let new_target := format_price (fmul sma (Num (depeg_factor config))) in
  fne new_target current = true ->
  let h3 := CancelOrder id :: h2 in
  api_query_private_cancel ex h3 = Ok [] ->
  let h4 := AddStandardOrder (pair config) buy (volume config) new_target
                             false :: h3 in
  kraken_add_standard_order ex h4 = Raise e ->
  tick ex config false s past = (Ok tt, {| self := s; calls := h4 |}).
Proof.
  intros Hao Hne Hip h1 Hq Hinfo Hst Hopen h2 Hc Hs Hprice new_target Hcmp h3
    Hcancel h4 Hadd.
  destruct s as [ao es ip]. cbn [active_order in_position] in *.
  apply String.eqb_neq in Hne, Hopen.
  subst ao ip h4 h3 new_target h2 h1. follow_tick. reflexivity.
Qed.

Lemma X15_refused_replacement_keeps_cancelled_id_witness :
  tick refusing_exchange sample_config false buy_pending []
  = (Ok tt,
     {| self := buy_pending;
        calls := [AddStandardOrder "XXBTZUSD" buy (1 # 1000)
                    (format_price (fmul (Num (2500 # 25))
                                     (Num (depeg_factor sample_config))))
                    false;
                  CancelOrder "OBUY01"; GetOhlcData "XXBTZUSD" 60;
                  QueryOrdersInfo "OBUY01"] |}).
Proof.
  exact (X15_refused_replacement_keeps_cancelled_id refusing_exchange
           sample_config buy_pending [] "OBUY01"%string
           (fun _ => Some (OrderInfo (Some "open"%string) (Ok (Num 95))))
           (OrderInfo (Some "open"%string) (Ok (Num 95))) "open"%string
           (flat_closes 26) (Num (2500 # 25)) (Num 95)
           (ApiError "EOrder:Insufficient funds")
           eq_refl ltac:(discriminate) eq_refl eq_refl eq_refl eq_refl
           ltac:(discriminate) eq_refl eq_refl eq_refl eq_refl eq_refl
           eq_refl).
Defined.

(** ** Shutdown *)

Lemma handle_shutdown_effect (ex : Exchange) (strategy : option bool)
    (p : Process) :
  handle_shutdown ex strategy p =
  {| running := false;
     bot := {| self := self (bot p);
               calls := match strategy, active_order (self (bot p)) with
                        | Some false, Some id =>
                            if String.eqb id "" then calls (bot p)
                            else CancelOrder id :: calls (bot p)
                        | _, _ => calls (bot p)
                        end |} |}.
Proof.
  destruct p as [r [[ao es ip] past]]. unfold handle_shutdown.
  destruct strategy as [[|]|]; cbn; try reflexivity.
  destruct ao as [id|]; cbn; [|reflexivity].
  destruct (String.eqb id ""); cbn; [reflexivity|].
  unfold_client. unfold_monad. cbn.
  now destruct (api_query_private_cancel ex _) as [[|error errors]|e].
Qed.

(** X16.  [handle_shutdown] clears [running] and never raises.  It asks the
    exchange for one thing only, the cancellation of the active order, and
    only for a strategy in live mode whose [active_order] is neither [None]
    nor empty; whatever the exchange answers, the trading state is left as it
    was, [active_order] included. *)
Theorem X16_shutdown_cancels_only_a_live_order (ex : Exchange)
    (strategy : option bool) (p : Process) :
  let p' := handle_shutdown ex strategy p in
  running p' = false /\
  self (bot p') = self (bot p) /\
  calls (bot p') =
    match strategy, active_order (self (bot p)) with
    | Some false, Some id =>
        if String.eqb id "" then calls (bot p)
        else CancelOrder id :: calls (bot p)
    | _, _ => calls (bot p)
    end.
Proof. cbn zeta. rewrite handle_shutdown_effect. repeat split. Qed.

(** X17.  Nothing records that the cancellation was requested: a second
    [handle_shutdown] (the signal handler ran it, then the [finally] clause of
    [main] does) requests the cancellation of the same order again. *)
Theorem X17_second_shutdown_cancels_again (ex : Exchange) (p : Process)
    (id : string) :
  active_order (self (bot p)) = Some id -> id <> ""%string ->
  calls (bot (handle_shutdown ex (Some false)
                (handle_shutdown ex (Some false) p)))
  = CancelOrder id :: CancelOrder id :: calls (bot p).
Proof.
  intros Hao Hne. apply String.eqb_neq in Hne.
  rewrite !handle_shutdown_effect. cbn [bot self calls].
  now rewrite Hao, Hne.
Qed.

Lemma X17_second_shutdown_cancels_again_witness :
  let p := {| running := true;
              bot := {| self := buy_pending; calls := [] |} |} in
  calls (bot (handle_shutdown down_exchange (Some false)
                (handle_shutdown down_exchange (Some false) p)))
  = [CancelOrder "OBUY01"; CancelOrder "OBUY01"].
Proof.
  exact (X17_second_shutdown_cancels_again down_exchange
           {| running := true; bot := {| self := buy_pending; calls := [] |} |}
           "OBUY01"%string eq_refl ltac:(discriminate)).
Defined.

(** ** Connection test and ticker *)

(** X18.  [test_connection] never raises: it answers [True] exactly when both
    the server time and the account balance could be fetched, and it does not
    ask for the balance once the server time has failed. *)
Theorem X18_test_connection_outcome (ex : Exchange) (server_time : result unit)
    (w : World) :
  test_connection ex server_time w =
  match server_time with
  | Raise _ => (Ok false, w)
  | Ok _ =>
      let h := GetAccountBalance :: calls w in
      (Ok (match kraken_get_account_balance ex h with
           | Ok _ => true
           | Raise _ => false
           end),
       {| self := self w; calls := h |})
  end.
Proof.
  unfold test_connection. unfold_client. unfold_monad.
  destruct server_time as [[]|e]; cbn; [|reflexivity].
  now destruct (kraken_get_account_balance ex _).
Qed.

Lemma starts_with_longer (needle text : string) :
  (String.length text < String.length needle)%nat ->
  starts_with needle text = false.
Proof.
  revert text. induction needle as [|a needle IH]; intros text Hlen.
  - cbn in Hlen. lia.
  - destruct text as [|b text]; [reflexivity|]. cbn [starts_with].
    rewrite IH by (cbn [String.length] in Hlen; lia).
    apply Bool.andb_false_r.
Qed.

Lemma contains_longer (needle text : string) :
  (String.length text < String.length needle)%nat ->
  contains needle text = false.
Proof.
  induction text as [|b text IH]; intros Hlen; cbn [contains];
    rewrite starts_with_longer by exact Hlen; [reflexivity|].
  apply IH. cbn [String.length] in Hlen. lia.
Qed.

Lemma contains_skip (a b : Ascii.ascii) (needle text : string) :
  Ascii.eqb a b = false ->
  contains (String a needle) (String b text) = contains (String a needle) text.
Proof. intros H. cbn [contains starts_with]. now rewrite H. Qed.

Lemma short_pair_message_has_no_marker (pair : string) :
  (String.length pair < 3)%nat ->
  contains unknown_pair_marker ("Invalid trading pair format: " ++ pair)
  = false.
Proof.
  intros Hlen. unfold unknown_pair_marker. cbn [String.append].
  rewrite !contains_skip by reflexivity.
  apply contains_longer. cbn [String.length]. lia.
Qed.

(** X19.  A pair of fewer than three characters is rejected with
    [ValueError("Invalid trading pair format: <pair>")], whatever the exchange
    would have answered. *)
Theorem X19_short_pair_is_rejected (T : Type) (pair : string)
    (public_ticker : attempt (list string)) (ticker_information : attempt T) :
  (String.length pair < 3)%nat ->
  get_ticker_info pair public_ticker ticker_information
  = Failed ValueError ("Invalid trading pair format: " ++ pair).
Proof.
  intros Hlen. unfold get_ticker_info.
  destruct (Nat.ltb_spec (String.length pair) 3) as [_|H]; [|lia].
  now rewrite short_pair_message_has_no_marker.
Qed.

Lemma X19_short_pair_is_rejected_witness :
  get_ticker_info "XB" (Done []) (Done 50000%Z)
  = Failed ValueError "Invalid trading pair format: XB".
Proof.
  apply (X19_short_pair_is_rejected Z "XB" (Done []) (Done 50000%Z)).
  simpl. lia.
Defined.

(** X20.  [get_ticker_info] returns a ticker exactly when the pair has at
    least three characters, the public ticker query reports no error and the
    ticker request itself succeeds; the ticker returned is that request's. *)
Theorem X20_ticker_returned_iff_all_succeed (T : Type) (pair : string)
    (public_ticker : attempt (list string)) (ticker_information : attempt T)
    (ticker : T) :
  get_ticker_info pair public_ticker ticker_information = Done ticker <->
  (3 <= String.length pair)%nat /\
  public_ticker = Done [] /\
  ticker_information = Done ticker.
Proof.
  unfold get_ticker_info.
  destruct (Nat.ltb_spec (String.length pair) 3) as [Hs|Hl].
  - split.
    + destruct (contains _ _); discriminate.
    + intros [H _]. lia.
  - destruct public_ticker as [[|e0 errs]|k m].
    + destruct ticker_information as [t|k m].
      * split; [intros E; injection E as ->; auto|].
        intros (_ & _ & E). now injection E as ->.
      * split; [destruct (contains _ _); discriminate|].
        intros (_ & _ & E). discriminate E.
    + split; [destruct (contains _ _); discriminate|].
      intros (_ & E & _). discriminate E.
    + split; [destruct (contains _ _); discriminate|].
      intros (_ & E & _). discriminate E.
Qed.

Lemma X20_ticker_returned_iff_all_succeed_witness :
  get_ticker_info "XXBTZUSD" (@Done (list string) []) (Done 50000%Z)
  = Done 50000%Z.
Proof.
  apply (proj2 (X20_ticker_returned_iff_all_succeed Z "XXBTZUSD" (Done [])
                  (Done 50000%Z) 50000%Z)).
  split; [simpl; lia | split; reflexivity].
Defined.

Lemma contains_after_prefix (needle before text : string) :
  contains needle text = true ->
  contains needle (before ++ text) = true.
Proof.
  intros H. induction before as [|c before IH]; [exact H|].
  cbn [String.append contains]. rewrite IH. apply Bool.orb_true_r.
Qed.

(** X21.  For a pair of at least three characters, an unknown pair is always
    reported the same way.  Whether the public query raises with a message
    that mentions ["EQuery:Unknown asset pair"], or lists such an error first,
    or the ticker request raises with such a message, the caller gets
    [ValueError("Unknown trading pair: <pair>")]. *)
Theorem X21_unknown_pair_is_normalised (T : Type) (pair : string)
    (public_ticker : attempt (list string)) (ticker_information : attempt T) :
  (3 <= String.length pair)%nat ->
  ((exists kind message,
      public_ticker = Failed kind message /\
      contains unknown_pair_marker message = true) \/
   (exists first_error errors,
      public_ticker = Done (first_error :: errors) /\
      contains unknown_pair_marker first_error = true) \/
   (exists kind message,
      public_ticker = Done [] /\
      ticker_information = Failed kind message /\
      contains unknown_pair_marker message = true)) ->
  get_ticker_info pair public_ticker ticker_information
  = Failed ValueError ("Unknown trading pair: " ++ pair).
Proof.
  intros Hlen Hcase. unfold get_ticker_info.
  destruct (Nat.ltb_spec (String.length pair) 3) as [H|_]; [lia|].
  destruct Hcase as [(k & m & -> & Hm) | [(e0 & errs & -> & Hm)
                                         | (k & m & -> & -> & Hm)]].
  - now rewrite Hm.
  - now rewrite (contains_after_prefix _ "Kraken API error: " _ Hm).
  - now rewrite Hm.
Qed.

Lemma X21_unknown_pair_is_normalised_witness :
  get_ticker_info "XBTEUR" (Done ["EQuery:Unknown asset pair"%string])
    (Done 50000%Z)
  = Failed ValueError "Unknown trading pair: XBTEUR".
Proof.
  apply (X21_unknown_pair_is_normalised Z "XBTEUR"
           (Done ["EQuery:Unknown asset pair"%string]) (Done 50000%Z)).
  - simpl. lia.
  - right. left. exists "EQuery:Unknown asset pair"%string, [].
    split; reflexivity.
Defined.

(** X22.  Other failures keep their identity: for a pair of at least three
    characters, an exception of the exchange library whose message does not
    mention ["EQuery:Unknown asset pair"] is re-raised as it is, from the
    public query as from the ticker request. *)
Theorem X22_other_failures_pass_unchanged (T : Type) (pair : string)
    (public_ticker : attempt (list string)) (ticker_information : attempt T)
    (kind : exn) (message : string) :
  (3 <= String.length pair)%nat ->
  contains unknown_pair_marker message = false ->
  (public_ticker = Failed kind message \/
   (public_ticker = Done [] /\ ticker_information = Failed kind message)) ->
  get_ticker_info pair public_ticker ticker_information = Failed kind message.
Proof.
  intros Hlen Hm Hcase. unfold get_ticker_info.
  destruct (Nat.ltb_spec (String.length pair) 3) as [H|_]; [lia|].
  destruct Hcase as [-> | [-> ->]]; now rewrite Hm.
Qed.

Lemma X22_other_failures_pass_unchanged_witness :
  get_ticker_info "XBTEUR" (@Done (list string) [])
    (@Failed Z (ApiError "EService:Unavailable") "EService:Unavailable")
  = Failed (ApiError "EService:Unavailable") "EService:Unavailable".
Proof.
  apply (X22_other_failures_pass_unchanged Z "XBTEUR" (Done [])
           (Failed (ApiError "EService:Unavailable") "EService:Unavailable")).
  - simpl. lia.
  - reflexivity.
  - right. split; reflexivity.
Defined.

(** ** The reference price *)

(** X23.  In every reachable trading state (depeg percentage other than 100,
    any exchange behaviour, either mode), an active order comes with its
    reference price: when [active_order] is neither [None] nor empty,
    [entry_sma] is set, so pricing the sell order never meets [None]. *)
Theorem X23_active_order_has_reference_price (config : Config)
    (test_mode : bool) (s : TradingState) :
  ~ depeg_percentage config == 100 ->
  reachable config test_mode s ->
  truthy (active_order s) = true ->
  exists p, entry_sma s = Some p.
Proof.
  intros Hd Hr Ht.
  destruct (reachable_well_formed config test_mode s Hd Hr) as [H _].
  specialize (H Ht). destruct (entry_sma s) as [p|]; [now exists p | congruence].
Qed.

Lemma X23_active_order_has_reference_price_witness :
  exists p, entry_sma opened_position = Some p.
Proof.
  apply (X23_active_order_has_reference_price sample_config false).
  - cbn. intros H. discriminate H.
  - unfold opened_position. cbn zeta. do 2 apply reachable_tick.
    apply reachable_initial.
  - vm_compute. reflexivity.
Defined.

(** X24.  [format_price] keeps the order of prices and leaves a formatted
    price as it is: formatting twice is formatting once. *)
Theorem X24_format_price_monotone_idempotent (x y : Q) :
  (x <= y ->
   exists a b, format_price (Num x) = Num a /\ format_price (Num y) = Num b /\
               a <= b) /\
  (exists a b, format_price (Num x) = Num a /\
               format_price (format_price (Num x)) = Num b /\ a == b).
Proof.
  split.
  - intros Hxy. exists (round1 x), (round1 y).
    repeat split. now apply round1_monotone.
  - exists (round1 x), (round1 (round1 x)).
    repeat split. symmetry. apply round1_idempotent.
Qed.

Lemma X24_format_price_monotone_idempotent_witness :
  exists a b, format_price (Num (9599 # 100)) = Num a /\
              format_price (Num (9604 # 100)) = Num b /\ a <= b.
Proof.
  apply (proj1 (X24_format_price_monotone_idempotent (9599 # 100) (9604 # 100))).
  discriminate.
Defined.
